(** * open-cli: the context-assembly subsystem

    A shallow embedding of [lib/file-manager.js] (class [FileManager]) and of
    [lib/context-builder.js] (class [ContextBuilder]), with the properties of
    the specification stated and settled over it.

    JavaScript strings are sequences of UTF-16 code units.  The embedding
    covers the code units below 256 (Latin-1), written as [list ascii]; on
    that range [String.prototype.toLowerCase] is the per-unit map
    [lowerUnit], and [\w] is [[A-Za-z0-9_]].  [length] is the JavaScript
    [.length]. *)

From Stdlib Require Import Ascii String.
From Stdlib Require Import List Arith Bool Lia PeanoNat.
Import ListNotations.

Set Implicit Arguments.
Set Warnings "-abstract-large-number".
Local Open Scope list_scope.

(** ** JavaScript strings *)

Definition jsstring := list ascii.

Definition str (s : string) : jsstring := list_ascii_of_string s.

Definition jseqb (a b : jsstring) : bool :=
  if list_eq_dec ascii_dec a b then true else false.

Fixpoint startsWith (needle s : jsstring) : bool :=
  match needle, s with
  | [], _ => true
  | _ :: _, [] => false
  | a :: needle', b :: s' => Ascii.eqb a b && startsWith needle' s'
  end.

(** [s.includes(needle)] *)
Fixpoint includes (s needle : jsstring) : bool :=
  startsWith needle s ||
  match s with
  | [] => false
  | _ :: s' => includes s' needle
  end.

(** [s.substring(0, n)] for [0 <= n] *)
Definition substring0 (n : nat) (s : jsstring) : jsstring := firstn n s.

(** ['='.repeat(n)] and friends *)
Definition repeatStr (s : jsstring) (n : nat) : jsstring :=
  concat (repeat s n).

Definition inRange (lo hi : nat) (c : ascii) : bool :=
  (lo <=? nat_of_ascii c) && (nat_of_ascii c <=? hi).

(** One code unit of [toLowerCase]: A-Z, and the Latin-1 capitals
    U+00C0..U+00DE without the multiplication sign U+00D7. *)
Definition lowerUnit (c : ascii) : ascii :=
  if inRange 65 90 c || inRange 192 214 c || inRange 216 222 c
  then ascii_of_nat (nat_of_ascii c + 32)
  else c.

Definition toLowerCase (s : jsstring) : jsstring := map lowerUnit s.

(** ** Regular expressions

    The five patterns of [_findMentionedFiles] are sequences of single
    character classes and greedy [+] repetitions of a class.  [exec] is the
    backtracking matcher of that fragment: a [+] first tries to take one more
    unit and only then hands over to the rest of the pattern. *)

Module Regex.

Inductive item : Type :=
| One (c : ascii -> bool)
| Plus (c : ascii -> bool).

Definition t := list item.

Definition classOf (i : item) : ascii -> bool :=
  match i with One c => c | Plus c => c end.

Fixpoint plus (c : ascii -> bool) (k : jsstring -> option nat)
         (s : jsstring) : option nat :=
  match s with
  | [] => None
  | a :: s' =>
      if c a then
        match plus c k s' with
        | Some n => Some (S n)
        | None => option_map S (k s')
        end
      else None
  end.

(** Length of the match of [r] anchored at the start of [s]. *)
Fixpoint exec (r : t) : jsstring -> option nat :=
  match r with
  | [] => fun _ => Some 0
  | One c :: r' =>
      fun s =>
        match s with
        | a :: s' => if c a then option_map S (exec r' s') else None
        | [] => None
        end
  | Plus c :: r' => plus c (exec r')
  end.

(** [s.match(/r/g)]: every match, left to right, the search resuming where
    the previous match ended.  [skip] counts the units of the running match
    still to be passed over.  No pattern here matches the empty string. *)
Fixpoint scan (r : t) (skip : nat) (s : jsstring) : list jsstring :=
  match s with
  | [] => []
  | _ :: s' =>
      match skip with
      | S k => scan r k s'
      | O =>
          match exec r s with
          | Some n => firstn n s :: scan r (pred n) s'
          | None => scan r 0 s'
          end
      end
  end.

Definition matchAll (r : t) (s : jsstring) : list jsstring := scan r 0 s.

(** [s.replace(/[c]/g, '')] for a character class [c] *)
Definition removeAll (c : ascii -> bool) (s : jsstring) : jsstring :=
  filter (fun a => negb (c a)) s.

End Regex.

Definition isWord (c : ascii) : bool :=
  inRange 48 57 c || inRange 65 90 c || inRange 97 122 c
  || Ascii.eqb c "_"%char.

Definition isChar (x : ascii) (c : ascii) : bool := Ascii.eqb c x.
Definition notChar (x : ascii) (c : ascii) : bool := negb (Ascii.eqb c x).

Definition backtick : ascii := "`"%char.
Definition dquote : ascii := ascii_of_nat 34.
Definition squote : ascii := "'"%char.
Definition dot : ascii := "."%char.
Definition slash : ascii := "/"%char.

Definition isQuote (c : ascii) : bool :=
  isChar backtick c || isChar dquote c || isChar squote c.

Definition isWordOrSlash (c : ascii) : bool := isWord c || isChar slash c.

Import Regex(item, One, Plus).

(** [filePatterns], in the order of the array literal *)
Definition filePatterns : list Regex.t :=
  [ [Plus isWord; One (isChar dot); Plus isWord];
    [Plus isWordOrSlash; One (isChar dot); Plus isWord];
    [One (isChar backtick); Plus (notChar backtick); One (isChar dot); Plus isWord;
     One (isChar backtick)];
    [One (isChar dquote); Plus (notChar dquote); One (isChar dot); Plus isWord;
     One (isChar dquote)];
    [One (isChar squote); Plus (notChar squote); One (isChar dot); Plus isWord;
     One (isChar squote)] ].

(** ** The JavaScript [Set] of strings: insertion order, first one wins *)

Module JsSet.

Definition t := list jsstring.

Definition has (s : t) (x : jsstring) : bool := existsb (jseqb x) s.

Definition add (s : t) (x : jsstring) : t :=
  if has s x then s else s ++ [x].

Definition addAll (s : t) (l : list jsstring) : t := fold_left add l s.

(** [new Set(l)] *)
Definition ofList (l : list jsstring) : t := addAll [] l.

Definition size (s : t) : nat := length s.

End JsSet.

(** [a.slice(-n)] and [a.slice(0, n)] *)
Definition sliceLast {A} (n : nat) (l : list A) : list A :=
  skipn (length l - n) l.

Definition sliceFirst {A} (n : nat) (l : list A) : list A := firstn n l.

(** ** The Node.js services the two classes call

    [path.isAbsolute], [path.join], [fs.existsSync] and [fs.readFileSync]
    belong to the platform.  The classes are embedded over any
    implementation of them; [readFileSync] may throw. *)

Module Node.

Inductive outcome (A : Type) : Type :=
| Return (a : A)
| Throw (code : jsstring).

Arguments Return {A} a.
Arguments Throw {A} code.

Record env : Type := Env {
  isAbsolute : jsstring -> bool;
  join : jsstring -> jsstring -> jsstring;
  existsSync : jsstring -> bool;
  readFileSync : jsstring -> outcome jsstring
}.

End Node.

(** ** lib/file-manager.js *)

Module FileManager.

(** The objects pushed on [projectFiles] by [_scanDirectory] *)
Record ProjectFile : Type := File {
  name : jsstring;
  path : jsstring;
  relativePath : jsstring;
  extension : jsstring;
  size : nat
}.

Record t : Type := Make {
  projectPath : jsstring;
  projectFiles : list ProjectFile
}.

(** [readFile(filePath)]: [None] is [null].  The [try] block covers the
    whole body, and the [catch] returns [null]. *)
Definition readFile (E : Node.env) (this : t) (filePath : jsstring)
  : option jsstring :=
  let fullPath :=
    if Node.isAbsolute E filePath then filePath
    else Node.join E (projectPath this) filePath in
  if negb (Node.existsSync E filePath) then None
  else
    match Node.readFileSync E fullPath with
    | Node.Return content => Some content
    | Node.Throw _ => None
    end.

(** [findFiles(query)] *)
Fixpoint findFilesIn (files : list ProjectFile) (lowerQuery : jsstring)
  : list ProjectFile :=
  match files with
  | [] => []
  | file :: rest =>
      if includes (toLowerCase (name file)) lowerQuery
      then file :: findFilesIn rest lowerQuery
      else if includes (toLowerCase (relativePath file)) lowerQuery
      then file :: findFilesIn rest lowerQuery
      else findFilesIn rest lowerQuery
  end.

Definition findFiles (this : t) (query : jsstring) : list ProjectFile :=
  findFilesIn (projectFiles this) (toLowerCase query).

End FileManager.

(** ** lib/context-builder.js *)

Module ContextBuilder.

Import FileManager.

Record t : Type := Make {
  fileManager : FileManager.t;
  maxContextLength : nat;
  currentContext : JsSet.t
}.

Definition constructor (fileManager : FileManager.t) : t :=
  {| fileManager := fileManager;
     maxContextLength := 8000;
     currentContext := [] |}.

(** A conversation message, [{ role, content }] *)
Record Message : Type := Msg {
  role : jsstring;
  content : jsstring
}.

Definition headerLine1 : jsstring :=
  str ("=== PROJECT CONTEXT ===" ++ String "010" "").
Definition headerLine2 : jsstring :=
  str ("Here are the relevant files from the user's project:"
       ++ String "010" (String "010" "")).
Definition limitNotice : jsstring :=
  str ("... (More files available but context limit reached)"
       ++ String "010" (String "010" "")).
Definition footerLine : jsstring :=
  str ("=== END PROJECT CONTEXT ===" ++ String "010" (String "010" "")).

Definition nl : jsstring := ["010"%char].
Definition separator : jsstring := repeatStr (str "=") 40.
Definition truncatedMarker : jsstring :=
  nl ++ str "... [File truncated]" ++ nl.
Definition readError : jsstring := str "[Error: Could not read file]".

(** [!content] on [string | null] *)
Definition falsy (content : option jsstring) : bool :=
  match content with
  | None => true
  | Some [] => true
  | Some (_ :: _) => false
  end.

(** [_buildFileContext(filePath)] *)
Definition _buildFileContext (E : Node.env) (this : t)
           (filePath : jsstring) : jsstring :=
  match FileManager.readFile E (fileManager this) filePath with
  | None => str "FILE: " ++ filePath ++ nl ++ readError ++ nl ++ nl
  | Some [] => str "FILE: " ++ filePath ++ nl ++ readError ++ nl ++ nl
  | Some content =>
      let truncatedContent :=
        if 2000 <? length content
        then substring0 2000 content ++ truncatedMarker
        else content in
      str "FILE: " ++ filePath ++ nl ++ separator ++ nl
        ++ truncatedContent ++ nl ++ separator ++ nl ++ nl
  end.

(** The literal-pattern loops of [_findMentionedFiles] *)
Definition patternPass (this : t) (message : jsstring) : list jsstring :=
  flat_map
    (fun pattern =>
       flat_map
         (fun match_ =>
            let cleanMatch := Regex.removeAll isQuote match_ in
            map relativePath
                (FileManager.findFiles (fileManager this) cleanMatch))
         (Regex.matchAll pattern message))
    filePatterns.

(** [keywordToFileType], in the order of [Object.entries] *)
Definition keywordToFileType : list (jsstring * list jsstring) :=
  [ (str "main",
     [str "main.js"; str "main.py"; str "index.js"; str "app.js";
      str "main.cpp"]);
    (str "config",
     [str ".config"; str "config.js"; str "config.json";
      str "package.json"]);
    (str "readme", [str "README.md"; str "readme.txt"]);
    (str "test", [str "test"; str "spec"; str "__test__"]);
    (str "component", [str ".jsx"; str ".tsx"; str ".vue"]);
    (str "style", [str ".css"; str ".scss"; str ".sass"]);
    (str "database", [str "db"; str "database"; str ".sql"]);
    (str "api", [str "api"; str "routes"; str "endpoints"]);
    (str "auth", [str "auth"; str "login"; str "authentication"]) ].

(** What one entry of the table pushes on [mentionedFiles] *)
Definition keywordEntry (this : t) (lowerMessage : jsstring)
           (entry : jsstring * list jsstring) : list jsstring :=
  let (keyword, patterns) := entry in
  if includes lowerMessage keyword then
    flat_map
      (fun pattern =>
         map relativePath
             (sliceFirst 3
                (FileManager.findFiles (fileManager this) pattern)))
      patterns
  else [].

(** The keyword loops of [_findMentionedFiles] *)
Definition keywordPass (this : t) (lowerMessage : jsstring)
  : list jsstring :=
  flat_map (keywordEntry this lowerMessage) keywordToFileType.

(** [_findMentionedFiles(message)] *)
Definition _findMentionedFiles (this : t) (message : jsstring)
  : list jsstring :=
  let lowerMessage := toLowerCase message in
  let mentionedFiles :=
    patternPass this message ++ keywordPass this lowerMessage in
  JsSet.ofList mentionedFiles.

(** [_findRecentlyMentionedFiles(conversationHistory)] *)
Definition _findRecentlyMentionedFiles (this : t)
           (conversationHistory : list Message) : list jsstring :=
  let recentMessages := sliceLast 4 conversationHistory in
  fold_left
    (fun recentFiles message =>
       if jseqb (role message) (str "user")
       then JsSet.addAll recentFiles
              (_findMentionedFiles this (content message))
       else recentFiles)
    recentMessages [].

(** [filesToInclude] of [buildContext] *)
Definition filesToInclude (this : t) (userMessage : jsstring)
           (conversationHistory : list Message) : JsSet.t :=
  let mentionedFiles := _findMentionedFiles this userMessage in
  let recentlyMentioned :=
    _findRecentlyMentionedFiles this conversationHistory in
  JsSet.ofList (mentionedFiles ++ recentlyMentioned).

(** The [for ... of filesToInclude] loop of [buildContext], with its
    [break]; [context] and [currentLength] are the two variables the loop
    updates. *)
Fixpoint packLoop (E : Node.env) (this : t) (files : list jsstring)
         (context : jsstring) (currentLength : nat) : jsstring :=
  match files with
  | [] => context
  | filePath :: rest =>
      let fileContext := _buildFileContext E this filePath in
      if maxContextLength this <? currentLength + length fileContext
      then context ++ limitNotice
      else packLoop E this rest (context ++ fileContext)
                    (currentLength + length fileContext)
  end.

(** [buildContext(userMessage, conversationHistory)]: the returned string
    and the object after the assignment to [this.currentContext]. *)
Definition buildContext (E : Node.env) (this : t) (userMessage : jsstring)
           (conversationHistory : list Message) : jsstring * t :=
  let filesToInclude := filesToInclude this userMessage conversationHistory in
  let context :=
    if 0 <? JsSet.size filesToInclude then
      packLoop E this filesToInclude ([] ++ headerLine1 ++ headerLine2) 0
        ++ footerLine
    else [] in
  (context,
   {| fileManager := fileManager this;
      maxContextLength := maxContextLength this;
      currentContext := filesToInclude |}).

(** [includeFiles(filePaths)] *)
Definition includeFiles (this : t) (filePaths : list jsstring) : t :=
  {| fileManager := fileManager this;
     maxContextLength := maxContextLength this;
     currentContext := JsSet.addAll (currentContext this) filePaths |}.

(** [clearContext()] *)
Definition clearContext (this : t) : t :=
  {| fileManager := fileManager this;
     maxContextLength := maxContextLength this;
     currentContext := [] |}.

(** [getCurrentContext()] *)
Definition getCurrentContext (this : t) : list jsstring :=
  currentContext this.

End ContextBuilder.

(** ** A POSIX instance of the Node.js services

    [path.posix] on a file system given as a table from absolute, normalized
    paths to entries, with a working directory against which [fs] resolves
    relative paths.  Paths are resolved by their text alone, which is what
    the system does for the plain paths of the scenarios below (no [..]
    through a missing directory, no trailing separator after a file); the
    instance is used for those scenarios only. *)

Module Posix.

Import Node.

Inductive entry : Type :=
| Regular (content : jsstring)
| Directory
| Unreadable.

Record fsState : Type := Fs {
  cwd : jsstring;
  entries : list (jsstring * entry)
}.

Fixpoint split (s : jsstring) : list jsstring :=
  match s with
  | [] => [[]]
  | c :: s' =>
      if Ascii.eqb c slash then [] :: split s'
      else
        match split s' with
        | seg :: segs => (c :: seg) :: segs
        | [] => [[c]]
        end
  end.

Fixpoint joinSegments (segs : list jsstring) : jsstring :=
  match segs with
  | [] => []
  | [seg] => seg
  | seg :: rest => seg ++ slash :: joinSegments rest
  end.

(** One segment of [normalizeString]; [res] holds the kept segments, the
    last one first. *)
Definition normalizeStep (allowAboveRoot : bool) (res : list jsstring)
           (seg : jsstring) : list jsstring :=
  if jseqb seg [] || jseqb seg (str ".") then res
  else if jseqb seg (str "..") then
    match res with
    | top :: below =>
        if jseqb top (str "..") then seg :: res else below
    | [] => if allowAboveRoot then [seg] else []
    end
  else seg :: res.

Definition normalizeString (p : jsstring) (allowAboveRoot : bool)
  : jsstring :=
  joinSegments (rev (fold_left (normalizeStep allowAboveRoot) (split p) [])).

Definition posixIsAbsolute (p : jsstring) : bool :=
  match p with
  | c :: _ => Ascii.eqb c slash
  | [] => false
  end.

Definition endsWithSlash (p : jsstring) : bool :=
  match rev p with
  | c :: _ => Ascii.eqb c slash
  | [] => false
  end.

(** [path.normalize] *)
Definition normalize (p : jsstring) : jsstring :=
  match p with
  | [] => str "."
  | _ =>
      let isAbs := posixIsAbsolute p in
      let trailing := endsWithSlash p in
      match normalizeString p (negb isAbs) with
      | [] => if isAbs then str "/" else if trailing then str "./"
              else str "."
      | q =>
          let q' := if trailing then q ++ [slash] else q in
          if isAbs then slash :: q' else q'
      end
  end.

(** [path.join] of two arguments *)
Definition posixJoin (a b : jsstring) : jsstring :=
  match a, b with
  | [], [] => str "."
  | [], _ => normalize b
  | _, [] => normalize a
  | _, _ => normalize (a ++ slash :: b)
  end.

(** The absolute path [fs] opens for [p] *)
Definition resolve (st : fsState) (p : jsstring) : jsstring :=
  let full := if posixIsAbsolute p then p else cwd st ++ slash :: p in
  slash :: normalizeString full false.

Fixpoint lookup (tbl : list (jsstring * entry)) (p : jsstring)
  : option entry :=
  match tbl with
  | [] => None
  | (q, e) :: rest => if jseqb q p then Some e else lookup rest p
  end.

Definition posixExistsSync (st : fsState) (p : jsstring) : bool :=
  match p with
  | [] => false
  | _ =>
      match lookup (entries st) (resolve st p) with
      | Some _ => true
      | None => false
      end
  end.

Definition posixReadFileSync (st : fsState) (p : jsstring)
  : outcome jsstring :=
  match lookup (entries st) (resolve st p) with
  | Some (Regular content) => Return content
  | Some Directory => Throw (str "EISDIR")
  | Some Unreadable => Throw (str "EACCES")
  | None => Throw (str "ENOENT")
  end.

Definition env (st : fsState) : Node.env :=
  {| isAbsolute := posixIsAbsolute;
     join := posixJoin;
     existsSync := posixExistsSync st;
     readFileSync := posixReadFileSync st |}.

End Posix.

(** ** Concrete projects used as test inputs *)

Module Scenario.

Import FileManager ContextBuilder.

Definition filler (n : nat) : jsstring := repeatStr (str "x") n.

(** The entry of a scan for a file [n] directly under the project root *)
Definition sourceFile (root ext n : jsstring) : ProjectFile :=
  {| name := n;
     path := root ++ slash :: n;
     relativePath := n;
     extension := ext;
     size := 0 |}.

Definition js : jsstring := str ".js".

Definition root : jsstring := str "/proj".

Definition fiveNames : list jsstring :=
  [str "a.js"; str "b.js"; str "c.js"; str "d.js"; str "e.js"].

(** Five files of [n] units each, process started in the project root *)
Definition fiveFiles (n : nat) : Posix.fsState :=
  {| Posix.cwd := root;
     Posix.entries :=
       (root, Posix.Directory)
         :: map (fun f => (root ++ slash :: f, Posix.Regular (filler n)))
                fiveNames |}.

Definition manager5 : FileManager.t :=
  {| projectPath := root;
     projectFiles := map (sourceFile root js) fiveNames |}.

Definition builder5 : ContextBuilder.t := constructor manager5.

(** The file manager of a project rooted elsewhere than the working
    directory: [new FileManager('/proj')] in a process started in
    [/other]. *)
Definition elsewhere : Posix.fsState :=
  {| Posix.cwd := str "/other";
     Posix.entries :=
       [ (str "/proj", Posix.Directory);
         (str "/other", Posix.Directory);
         (str "/proj/a.js", Posix.Regular (str "let a = 1;")) ] |}.

Definition managerElsewhere : FileManager.t :=
  {| projectPath := root;
     projectFiles := [sourceFile root js (str "a.js")] |}.

(** The same project after [a.js] was deleted: the scan result is stale. *)
Definition withoutA (n : nat) : Posix.fsState :=
  {| Posix.cwd := root;
     Posix.entries :=
       (root, Posix.Directory)
         :: map (fun f => (root ++ slash :: f, Posix.Regular (filler n)))
                (tl fiveNames) |}.

(** Two scanned files, both gone from the disk, whose placeholder blocks
    are 80 units long, packed with a budget of 100. *)
Definition longA : jsstring := repeatStr (str "a") 40 ++ str ".js".
Definition longB : jsstring := repeatStr (str "b") 40 ++ str ".js".

Definition emptyDisk : Posix.fsState :=
  {| Posix.cwd := root; Posix.entries := [(root, Posix.Directory)] |}.

Definition builder100 : ContextBuilder.t :=
  {| fileManager :=
       {| projectPath := root;
          projectFiles := [sourceFile root js longA; sourceFile root js longB] |};
     maxContextLength := 100;
     currentContext := [] |}.

(** A file of 5000 units and a file of 500 units *)
Definition twoSizes : Posix.fsState :=
  {| Posix.cwd := root;
     Posix.entries :=
       [ (root, Posix.Directory);
         (str "/proj/big.js", Posix.Regular (filler 5000));
         (str "/proj/small.js", Posix.Regular (filler 500)) ] |}.

Definition builderSizes : ContextBuilder.t :=
  constructor
    {| projectPath := root;
       projectFiles :=
         [sourceFile root js (str "big.js");
          sourceFile root js (str "small.js")] |}.

(** Four bare names and a quoted one *)
Definition quotedE : jsstring :=
  str "a.js b.js c.js d.js " ++ dquote :: str "e.js" ++ [dquote].

Definition readQuotedE : jsstring :=
  str "read " ++ dquote :: str "e.js" ++ [dquote].

(** File names with no word character before their dot, one of them with a
    quote character in it, and a name with blanks and brackets *)
Definition managerDash : FileManager.t :=
  {| projectPath := root;
     projectFiles :=
       [ sourceFile root js (str "-.js");
         sourceFile root js (str "x'-.js");
         sourceFile root (str ".txt") (str "notes (1).txt") ] |}.

Definition dashDisk : Posix.fsState :=
  {| Posix.cwd := root;
     Posix.entries :=
       [ (root, Posix.Directory);
         (str "/proj/-.js", Posix.Regular (str "let dash = 1;"));
         (str "/proj/x'-.js", Posix.Regular (str "let x = 1;"));
         (str "/proj/notes (1).txt", Posix.Regular (str "to do")) ] |}.

(** Two quoted tokens, the second one [-.js], with the unquoted text [ y.z]
    right before its opening quote *)
Definition quotedDash : jsstring :=
  dquote :: str "x" ++ dquote :: str " y.z" ++ dquote :: str "-.js"
         ++ [dquote].

(** A quoted name that holds a single quote *)
Definition quotedInner : jsstring :=
  str "read " ++ dquote :: str "x'-.js" ++ [dquote].

Definition openNotes : jsstring :=
  str "open " ++ dquote :: str "notes (1).txt" ++ [dquote].

(** The project of five files after [e.js] was deleted *)
Definition withoutE (n : nat) : Posix.fsState :=
  {| Posix.cwd := root;
     Posix.entries :=
       (root, Posix.Directory)
         :: map (fun f => (root ++ slash :: f, Posix.Regular (filler n)))
                (firstn 4 fiveNames) |}.

(** A project whose names hit four of the patterns of keyword [main] *)
Definition managerMain : FileManager.t :=
  {| projectPath := root;
     projectFiles :=
       [ sourceFile root js (str "main.js");
         sourceFile root (str ".py") (str "main.py");
         sourceFile root js (str "index.js");
         sourceFile root js (str "app.js") ] |}.

End Scenario.

(** ** The specification's wording, for comparison with the code *)

Module Spec.

Import ContextBuilder.

(** Deduplicated, in order of first appearance *)
Fixpoint firstAppearances (l : list jsstring) : list jsstring :=
  match l with
  | [] => []
  | x :: rest =>
      x :: filter (fun y => negb (jseqb x y)) (firstAppearances rest)
  end.

(** The last [n] turns of the full history *)
Definition lastTurns (n : nat) (history : list Message) : list Message :=
  rev (firstn n (rev history)).

Definition isUserTurn (m : Message) : bool := jseqb (role m) (str "user").

(** ContinuityTracker: the last 4 turns, filtered to the user's, each run
    through candidate extraction, united. *)
Definition recentlyMentioned (this : ContextBuilder.t)
           (history : list Message) : list jsstring :=
  firstAppearances
    (flat_map (fun m => _findMentionedFiles this (content m))
              (filter isUserTurn (lastTurns 4 history))).

End Spec.

(** ** lib/chat.js *)

Module ChatSession.

Import ContextBuilder.

(** The units [String.prototype.trim] removes, among the units below 256:
    tab, line feed, vertical tab, form feed, carriage return, space and the
    no-break space. *)
Definition isWhiteSpace (c : ascii) : bool :=
  inRange 9 13 c || inRange 32 32 c || inRange 160 160 c.

Fixpoint trimStart (s : jsstring) : jsstring :=
  match s with
  | [] => []
  | c :: s' => if isWhiteSpace c then trimStart s' else s
  end.

Definition trimEnd (s : jsstring) : jsstring := rev (trimStart (rev s)).

Definition trim (s : jsstring) : jsstring := trimEnd (trimStart s).

(** [a.includes(x)] on an array of strings *)
Definition arrayIncludes (a : list jsstring) (x : jsstring) : bool :=
  existsb (fun y => jseqb y x) a.

(** [isExitCommand(message)] *)
Definition isExitCommand (message : jsstring) : bool :=
  let exitCommands := [str "quit"; str "exit"; str "bye"; str "q"] in
  arrayIncludes exitCommands (toLowerCase message).

(** [isFilesCommand(message)] *)
Definition isFilesCommand (message : jsstring) : bool :=
  let filesCommands :=
    [str "files"; str "ls"; str "list files"; str "show files"] in
  arrayIncludes filesCommands (toLowerCase message).

(** What the handler of the [line] event goes on to do *)
Inductive action : Type :=
| Stop
| ShowProjectFiles
| Prompt
| ProcessUserMessage (userMessage : jsstring).

(** The [line] handler of [setupEventHandlers], up to the call it makes:
    [stop()], [showProjectFiles()] through [handleSpecialCommands], a bare
    [prompt()], or [processUserMessage(userMessage)]. *)
Definition onLine (input : jsstring) : action :=
  let userMessage := trim input in
  if isExitCommand userMessage then Stop
  else if isFilesCommand userMessage then ShowProjectFiles
  else
    match userMessage with
    | [] => Prompt
    | _ :: _ => ProcessUserMessage userMessage
    end.

(** [addToHistory(role, content)], on the array [conversationHistory] *)
Definition addToHistory (conversationHistory : list Message)
           (role content : jsstring) : list Message :=
  let pushed := conversationHistory ++ [Msg role content] in
  if 20 <? length pushed then sliceLast 20 pushed else pushed.

End ChatSession.

(** ** lib/file-manager.js: the project scan *)

(** The directory services of Node.js the scan calls; [readdirSync] and
    [statSync] may throw.  One scan sees one state of the disk. *)
Module NodeDir.

Record Stats : Type := Stat {
  isDirectory : bool;
  isFile : bool;
  size : nat
}.

Record env : Type := Env {
  join : jsstring -> jsstring -> jsstring;
  relative : jsstring -> jsstring -> jsstring;
  extname : jsstring -> jsstring;
  readdirSync : jsstring -> Node.outcome (list jsstring);
  statSync : jsstring -> Node.outcome Stats
}.

End NodeDir.

Module Scan.

Import FileManager.

(** The three sets the constructor of [FileManager] builds *)
Definition supportedExtensions : list jsstring :=
  [ str ".js"; str ".jsx"; str ".ts"; str ".tsx";
    str ".py"; str ".pyx";
    str ".java"; str ".kt";
    str ".cpp"; str ".c"; str ".h"; str ".hpp";
    str ".rs";
    str ".go";
    str ".php";
    str ".rb";
    str ".swift";
    str ".dart";
    str ".sh"; str ".bash";
    str ".sql";
    str ".json"; str ".yaml"; str ".yml";
    str ".md"; str ".txt";
    str ".html"; str ".css"; str ".scss" ].

Definition ignoredDirs : list jsstring :=
  [ str "node_modules"; str ".git"; str ".vscode"; str ".idea";
    str "__pycache__"; str ".pytest_cache"; str ".mypy_cache";
    str "build"; str "dist"; str "target"; str ".next"; str ".nuxt";
    str "coverage"; str ".coverage"; str ".nyc_output";
    str "vendor"; str "Pods"; str ".gradle" ].

Definition ignoredFiles : list jsstring :=
  [ str ".DS_Store"; str ".gitignore"; str ".npmignore";
    str ".env"; str ".env.local"; str ".env.production";
    str "package-lock.json"; str "yarn.lock";
    str ".eslintrc"; str ".prettierrc" ].

(** [1024 * 1024] *)
Definition maxFileSize : nat := 1024 * 1024.

(** [_shouldIncludeFile(filename, fullPath)]; its [statSync] may throw. *)
Definition _shouldIncludeFile (D : NodeDir.env) (filename fullPath : jsstring)
  : Node.outcome bool :=
  if JsSet.has ignoredFiles filename then Node.Return false
  else
    let ext := NodeDir.extname D filename in
    if negb (JsSet.has supportedExtensions ext) then Node.Return false
    else
      match NodeDir.statSync D fullPath with
      | Node.Throw code => Node.Throw code
      | Node.Return stat =>
          if maxFileSize <? NodeDir.size stat then Node.Return false
          else Node.Return true
      end.

(** The [for ... of items] loop of [_scanDirectory], inside its [try]:
    [files] is [this.projectFiles], [recur] the recursive call.  A throw of
    [statSync] leaves the loop for the [catch], which only warns; what was
    pushed before stays. *)
Fixpoint scanItems (D : NodeDir.env) (projectPath : jsstring)
         (recur : jsstring -> list ProjectFile -> list ProjectFile)
         (dirPath : jsstring) (items : list jsstring)
         (files : list ProjectFile) : list ProjectFile :=
  match items with
  | [] => files
  | item :: rest =>
      let fullPath := NodeDir.join D dirPath item in
      match NodeDir.statSync D fullPath with
      | Node.Throw _ => files
      | Node.Return stat =>
          if NodeDir.isDirectory stat then
            if negb (JsSet.has ignoredDirs item)
            then scanItems D projectPath recur dirPath rest
                           (recur fullPath files)
            else scanItems D projectPath recur dirPath rest files
          else if NodeDir.isFile stat then
            match _shouldIncludeFile D item fullPath with
            | Node.Throw _ => files
            | Node.Return true =>
                scanItems D projectPath recur dirPath rest
                  (files ++
                   [{| name := item;
                       path := fullPath;
                       relativePath := NodeDir.relative D projectPath fullPath;
                       extension := NodeDir.extname D item;
                       size := NodeDir.size stat |}])
            | Node.Return false =>
                scanItems D projectPath recur dirPath rest files
            end
          else scanItems D projectPath recur dirPath rest files
      end
  end.

(** [_scanDirectory(dirPath, depth)] with [levels] calls still allowed below
    it; the recursion of the source stops at [depth > 5]. *)
Fixpoint scanLevels (D : NodeDir.env) (projectPath : jsstring)
         (levels : nat) (dirPath : jsstring) (depth : nat)
         (files : list ProjectFile) : list ProjectFile :=
  if 5 <? depth then files
  else
    match levels with
    | O => files
    | S levels' =>
        match NodeDir.readdirSync D dirPath with
        | Node.Throw _ => files
        | Node.Return items =>
            scanItems D projectPath
              (fun fullPath files' =>
                 scanLevels D projectPath levels' fullPath (depth + 1) files')
              dirPath items files
        end
    end.

(** [_scanDirectory(dirPath, depth = 0)]: the files of [this.projectFiles]
    after the call, from those before it. *)
Definition _scanDirectory (D : NodeDir.env) (this : FileManager.t)
           (dirPath : jsstring) (depth : nat)
           (files : list ProjectFile) : list ProjectFile :=
  scanLevels D (projectPath this) (6 - depth) dirPath depth files.

(** [scanProject()]: the object after the call; its [projectFiles] is the
    array returned. *)
Definition scanProject (D : NodeDir.env) (this : FileManager.t)
  : FileManager.t :=
  {| projectPath := projectPath this;
     projectFiles := _scanDirectory D this (projectPath this) 0 [] |}.

(** [getProjectFiles()] *)
Definition getProjectFiles (this : FileManager.t) : list ProjectFile :=
  projectFiles this.

End Scan.

(** ** lib/retry-handler.js *)

Module RetryHandler.

(** An error as the handler reads it: [error.response.status] when there is
    a response *)
Record Error : Type := Err {
  responseStatus : option nat;
  request : bool;
  message : jsstring
}.

(** [maxRetries] is a number or [undefined] ([None]). *)
Record t : Type := Make {
  maxRetries : option nat;
  baseDelay : nat
}.

(** [constructor(maxretries = 3, baseDelay = 1000)]: the assignment reads
    [this.maxRetries], which is not set yet. *)
Definition constructor (maxretries baseDelay : nat) : t :=
  {| maxRetries := None; baseDelay := baseDelay |}.

(** [shouldNotRetry(error)] *)
Definition shouldNotRetry (error : Error) : bool :=
  match responseStatus error with
  | Some status =>
      if status =? 401 then true
      else if status =? 400 then true
      else if status =? 402 then true
      else false
  | None => false
  end.

(** [attempt <= this.maxRetries] and [attempt === this.maxRetries];
    a comparison with [undefined] is false. *)
Definition attemptLe (attempt : nat) (limit : option nat) : bool :=
  match limit with
  | Some n => attempt <=? n
  | None => false
  end.

Definition attemptIs (attempt : nat) (limit : option nat) : bool :=
  match limit with
  | Some n => attempt =? n
  | None => false
  end.

(** How [executeWithRetry] settles: with the value of [asyncFn], or with
    what it throws, [None] being [undefined]; and the calls made. *)
Inductive settled (A : Type) : Type :=
| Resolved (value : A)
| Rejected (error : option Error).

Arguments Resolved {A} value.
Arguments Rejected {A} error.

(** The [for] loop of [executeWithRetry] from [attempt] on, at most [fuel]
    rounds; [asyncFn k] is what the [k]-th call of the operation does.  The
    delay, the messages and the sleep have no part in the result. *)
Fixpoint attempts {A} (this : t) (asyncFn : nat -> A + Error)
         (fuel attempt : nat) (lastError : option Error)
  : settled A * nat :=
  if attemptLe attempt (maxRetries this) then
    match fuel with
    | O => (Rejected lastError, attempt - 1)
    | S fuel' =>
        match asyncFn attempt with
        | inl value => (Resolved value, attempt)
        | inr error =>
            if shouldNotRetry error then (Rejected (Some error), attempt)
            else if attemptIs attempt (maxRetries this)
            then (Rejected (Some error), attempt)
            else attempts this asyncFn fuel' (attempt + 1) (Some error)
        end
    end
  else (Rejected lastError, attempt - 1).

(** [executeWithRetry(asyncFn)]: how it settles and how many times it
    called [asyncFn]. *)
Definition executeWithRetry {A} (this : t) (asyncFn : nat -> A + Error)
  : settled A * nat :=
  let rounds := match maxRetries this with Some n => n | None => 0 end in
  attempts this asyncFn rounds 1 None.

End RetryHandler.

Import FileManager ContextBuilder.

(** ** Vocabulary of the statements *)

(** The rendered blocks of a list of paths, and their total length *)
Definition blocks (E : Node.env) (this : ContextBuilder.t)
           (l : list jsstring) : jsstring :=
  concat (map (_buildFileContext E this) l).

Definition blocksLength (E : Node.env) (this : ContextBuilder.t)
           (l : list jsstring) : nat :=
  list_sum (map (fun p => length (_buildFileContext E this p)) l).

(** The placeholder block of an unreadable file *)
Definition placeholder (filePath : jsstring) : jsstring :=
  str "FILE: " ++ filePath ++ nl ++ readError ++ nl ++ nl.

(** The block around a text [body] *)
Definition framed (filePath body : jsstring) : jsstring :=
  str "FILE: " ++ filePath ++ nl ++ separator ++ nl
    ++ body ++ nl ++ separator ++ nl ++ nl.

(** A word character on both sides of a dot, as in [name.ext] *)
Fixpoint hasWordDotWord (s : jsstring) : bool :=
  match s with
  | [] => false
  | c1 :: s' =>
      match s' with
      | d :: c2 :: _ => isWord c1 && isChar dot d && isWord c2
      | _ => false
      end
      || hasWordDotWord s'
  end.

(** A dot and one or more word characters *)
Definition isExtension (s : jsstring) : bool :=
  match s with
  | d :: w :: ws => isChar dot d && forallb isWord (w :: ws)
  | _ => false
  end.

(** One or more units and then an extension, up to the end *)
Fixpoint hasExtension (s : jsstring) : bool :=
  match s with
  | [] => false
  | _ :: s' => isExtension s' || hasExtension s'
  end.

(** The pieces of [s] between the occurrences of [q] *)
Fixpoint splitAt (q : ascii) (s : jsstring) : list jsstring :=
  match s with
  | [] => [[]]
  | c :: s' =>
      if Ascii.eqb c q then [] :: splitAt q s'
      else
        match splitAt q s' with
        | seg :: segs => (c :: seg) :: segs
        | [] => [[c]]
        end
  end.

(** Whether the quote [q] that follows the text [pre] closes a quoted token
    that began in [pre], when quotes are paired from the left: a quote that
    closes nothing opens a token if the text up to the next quote has an
    extension, and that next quote then closes it. *)
Definition quoteTaken (q : ascii) (pre : jsstring) : bool :=
  fold_left (fun taken segment => negb taken && hasExtension segment)
            (tl (splitAt q pre)) false.

(** The pattern of [filePatterns] for the quote character [q] *)
Definition quotePattern (q : ascii) : Regex.t :=
  [One (isChar q); Plus (notChar q); One (isChar dot); Plus isWord;
   One (isChar q)].

(** The units a match of the first pattern can hold *)
Definition isWordOrDot (c : ascii) : bool := isWord c || isChar dot c.

(** [P] holds of every unit the pattern [r] can consume. *)
Definition within (P : ascii -> bool) (r : Regex.t) : Prop :=
  Forall (fun i => forall a, Regex.classOf i a = true -> P a = true) r.

(** A directory [_scanDirectory] is called on: the project root at depth 0,
    or an entry of such a directory that is a directory by [statSync] and is
    not named in [ignoredDirs], one level deeper. *)
Inductive scannedDir (D : NodeDir.env) (root : jsstring)
  : nat -> jsstring -> Prop :=
| scanned_root : scannedDir D root 0 root
| scanned_sub (depth : nat) (dir item : jsstring) (items : list jsstring)
              (stat : NodeDir.Stats) :
    scannedDir D root depth dir ->
    NodeDir.readdirSync D dir = Node.Return items ->
    In item items ->
    NodeDir.statSync D (NodeDir.join D dir item) = Node.Return stat ->
    NodeDir.isDirectory stat = true ->
    ~ In item Scan.ignoredDirs ->
    scannedDir D root (S depth) (NodeDir.join D dir item).

(** What the scan checked of a file before it pushed it *)
Definition passedFilter (D : NodeDir.env) (root : jsstring)
           (file : ProjectFile) : Prop :=
  ~ In (name file) Scan.ignoredFiles
  /\ extension file = NodeDir.extname D (name file)
  /\ In (extension file) Scan.supportedExtensions
  /\ relativePath file = NodeDir.relative D root (path file)
  /\ exists stat,
       NodeDir.statSync D (path file) = Node.Return stat
       /\ NodeDir.isDirectory stat = false
       /\ NodeDir.isFile stat = true
       /\ FileManager.size file = NodeDir.size stat
       /\ NodeDir.size stat <= Scan.maxFileSize.

(** Where the scan found a file *)
Definition foundAt (D : NodeDir.env) (root : jsstring)
           (file : ProjectFile) : Prop :=
  exists (dir : jsstring) (depth : nat) (items : list jsstring),
    scannedDir D root depth dir
    /\ depth <= 5
    /\ NodeDir.readdirSync D dir = Node.Return items
    /\ In (name file) items
    /\ path file = NodeDir.join D dir (name file).

(** ** A directory tree given by tables, for test inputs *)

Module Tree.

Record t : Type := Make {
  listings : list (jsstring * list jsstring);
  stats : list (jsstring * NodeDir.Stats)
}.

Fixpoint find {A} (tbl : list (jsstring * A)) (p : jsstring) : option A :=
  match tbl with
  | [] => None
  | (q, a) :: rest => if jseqb q p then Some a else find rest p
  end.

(** [path.extname] on a name without separators: from the last dot on,
    unless there is none, or it is the first unit, or the name is two
    dots. *)
Fixpoint lastDotSuffix (s : jsstring) : option jsstring :=
  match s with
  | [] => None
  | c :: s' =>
      match lastDotSuffix s' with
      | Some ext => Some ext
      | None => if Ascii.eqb c dot then Some s else None
      end
  end.

Definition extname (n : jsstring) : jsstring :=
  match n with
  | [] => []
  | c :: rest =>
      if jseqb n (str "..") then []
      else
        match lastDotSuffix rest with
        | Some ext => ext
        | None => []
        end
  end.

(** [path.relative(root, p)] for a path [p] below [root] *)
Fixpoint below (root p : jsstring) : jsstring :=
  match root, p with
  | [], c :: p' => if Ascii.eqb c slash then p' else p
  | a :: root', b :: p' => if Ascii.eqb a b then below root' p' else p
  | _, _ => p
  end.

Definition env (tree : t) : NodeDir.env :=
  {| NodeDir.join := Posix.posixJoin;
     NodeDir.relative := fun root p => below root p;
     NodeDir.extname := extname;
     NodeDir.readdirSync :=
       fun p =>
         match find (listings tree) p with
         | Some items => Node.Return items
         | None => Node.Throw (str "ENOENT")
         end;
     NodeDir.statSync :=
       fun p =>
         match find (stats tree) p with
         | Some st => Node.Return st
         | None => Node.Throw (str "ENOENT")
         end |}.

Definition dir : NodeDir.Stats := NodeDir.Stat true false 4096.
Definition file (n : nat) : NodeDir.Stats := NodeDir.Stat false true n.

(** A project with a source directory, a dependency directory, a file that
    is too large, a file without a supported extension, and, last in the
    listing of the root, a dangling link followed by a source file. *)
Definition project : t :=
  {| listings :=
       [ (str "/proj",
          [str "src"; str "node_modules"; str "README.md"; str "dump.sql";
           str "logo.png"; str ".env"; str "gone"; str "late.js"]);
         (str "/proj/src", [str "app.js"; str "locked"; str "util.ts"]);
         (str "/proj/node_modules", [str "dep.js"]) ];
     stats :=
       [ (str "/proj/src", dir);
         (str "/proj/node_modules", dir);
         (str "/proj/README.md", file 120);
         (str "/proj/dump.sql", file (2 * 1024 * 1024));
         (str "/proj/logo.png", file 300);
         (str "/proj/.env", file 40);
         (str "/proj/late.js", file 10);
         (str "/proj/src/app.js", file 900);
         (str "/proj/src/locked", dir);
         (str "/proj/src/util.ts", file 50);
         (str "/proj/node_modules/dep.js", file 70) ] |}.

Definition manager : FileManager.t :=
  {| projectPath := str "/proj"; projectFiles := [] |}.

End Tree.

(** The calls of the operation before the [k]-th all threw an error that
    [shouldNotRetry] lets through. *)
Definition retriedBefore {A} (asyncFn : nat -> A + RetryHandler.Error)
           (k : nat) : Prop :=
  forall j, 1 <= j < k ->
            exists error,
              asyncFn j = inr error
              /\ RetryHandler.shouldNotRetry error = false.

(** An operation that fails with status 503 twice and then answers *)
Definition flaky (k : nat) : jsstring + RetryHandler.Error :=
  if k <? 3
  then inr (RetryHandler.Err (Some 503) true (str "Service Unavailable"))
  else inl (str "done").

(** Every class of [r] gives the same answer on [a] and on [f a]. *)
Definition stable (f : ascii -> ascii) (r : Regex.t) : Prop :=
  Forall (fun i => forall a, Regex.classOf i (f a) = Regex.classOf i a) r.

(** * Properties *)

(** Comparisons of numbers a closed term computes to *)
Ltac computed_le := apply Nat.leb_le; vm_compute; reflexivity.
Ltac computed_lt := apply Nat.ltb_lt; vm_compute; reflexivity.

(** A selection known to be [l ++ p :: rest] is not empty. *)
Ltac selection_nonempty H :=
  rewrite H; intros C; symmetry in C; now apply app_cons_not_nil in C.

(** ** Strings and sets *)

Lemma jseqb_eq (a b : jsstring) : jseqb a b = true <-> a = b.
Proof.
  unfold jseqb. destruct (list_eq_dec ascii_dec a b); split; congruence.
Qed.

Lemma jseqb_refl (a : jsstring) : jseqb a a = true.
Proof. now apply jseqb_eq. Qed.

Lemma has_In (s : JsSet.t) (x : jsstring) : JsSet.has s x = true <-> In x s.
Proof.
  unfold JsSet.has. rewrite existsb_exists. split.
  - intros (y & Hy & E). apply jseqb_eq in E. now subst.
  - intros H. exists x. split; [assumption | apply jseqb_refl].
Qed.

Lemma add_In (s : JsSet.t) (x y : jsstring) :
  In y (JsSet.add s x) <-> In y s \/ y = x.
Proof.
  unfold JsSet.add. destruct (JsSet.has s x) eqn:H.
  - apply has_In in H. split; [tauto | intros [? | ->]; assumption].
  - rewrite in_app_iff. simpl. intuition congruence.
Qed.

Lemma addAll_In (l : list jsstring) :
  forall (s : JsSet.t) (y : jsstring),
    In y (JsSet.addAll s l) <-> In y s \/ In y l.
Proof.
  unfold JsSet.addAll.
  induction l as [|x l IH]; intros s y; simpl.
  - tauto.
  - rewrite IH, add_In. intuition congruence.
Qed.

Lemma ofList_In (l : list jsstring) (y : jsstring) :
  In y (JsSet.ofList l) <-> In y l.
Proof. unfold JsSet.ofList. rewrite addAll_In. simpl. tauto. Qed.

Lemma addAll_app (l1 l2 : list jsstring) (s : JsSet.t) :
  JsSet.addAll s (l1 ++ l2) = JsSet.addAll (JsSet.addAll s l1) l2.
Proof. unfold JsSet.addAll. apply fold_left_app. Qed.

Lemma filter_filter {A} (f g : A -> bool) (l : list A) :
  filter f (filter g l) = filter (fun x => g x && f x) l.
Proof.
  induction l as [|x l IH]; simpl; [reflexivity|].
  destruct (g x); simpl; [destruct (f x)|]; now rewrite IH.
Qed.

(** The [Set] built by successive [add]s is the list of first appearances,
    after what the set already held. *)
Lemma addAll_firstAppearances (l : list jsstring) :
  forall s : JsSet.t,
    JsSet.addAll s l
    = s ++ filter (fun y => negb (JsSet.has s y)) (Spec.firstAppearances l).
Proof.
  induction l as [|x l IH]; intros s.
  - simpl. now rewrite app_nil_r.
  - change (JsSet.addAll s (x :: l)) with (JsSet.addAll (JsSet.add s x) l).
    rewrite IH. unfold JsSet.add. simpl.
    destruct (JsSet.has s x) eqn:Hx; simpl.
    + f_equal. rewrite filter_filter. apply filter_ext. intros y.
      destruct (jseqb x y) eqn:Exy; simpl; [|reflexivity].
      apply jseqb_eq in Exy. subst y. now rewrite Hx.
    + rewrite <- app_assoc. simpl. do 2 f_equal.
      rewrite filter_filter. apply filter_ext. intros y.
      unfold JsSet.has. rewrite existsb_app. simpl.
      rewrite orb_false_r, negb_orb.
      rewrite andb_comm. f_equal. f_equal.
      unfold jseqb.
      destruct (list_eq_dec ascii_dec y x), (list_eq_dec ascii_dec x y);
        congruence.
Qed.

Lemma ofList_firstAppearances (l : list jsstring) :
  JsSet.ofList l = Spec.firstAppearances l.
Proof.
  unfold JsSet.ofList. rewrite addAll_firstAppearances. simpl.
  induction (Spec.firstAppearances l); simpl; congruence.
Qed.

Lemma firstAppearances_In (l : list jsstring) (y : jsstring) :
  In y (Spec.firstAppearances l) <-> In y l.
Proof. rewrite <- ofList_firstAppearances. apply ofList_In. Qed.

Lemma firstAppearances_NoDup (l : list jsstring) :
  NoDup (Spec.firstAppearances l).
Proof.
  induction l as [|x l IH]; simpl; constructor.
  - rewrite filter_In. intros [_ H]. now rewrite jseqb_refl in H.
  - now apply NoDup_filter.
Qed.

Lemma sliceLast_lastTurns (n : nat) (history : list Message) :
  sliceLast n history = Spec.lastTurns n history.
Proof.
  unfold sliceLast, Spec.lastTurns.
  now rewrite firstn_rev, rev_involutive.
Qed.

Lemma sliceLast_app {A} (n : nat) (older recent : list A) :
  length recent = n -> sliceLast n (older ++ recent) = recent.
Proof.
  intros H. unfold sliceLast. rewrite length_app, H.
  replace (length older + n - n) with (length older + 0) by lia.
  rewrite skipn_app, Nat.add_0_r, skipn_all.
  now replace (length older - length older) with 0 by lia.
Qed.

(** The loop over the recent messages adds, to the set it starts from, the
    candidates of the user turns in order. *)
Lemma recent_fold (this : ContextBuilder.t) (msgs : list Message) :
  forall s : JsSet.t,
    fold_left
      (fun recentFiles message =>
         if jseqb (role message) (str "user")
         then JsSet.addAll recentFiles
                (_findMentionedFiles this (content message))
         else recentFiles)
      msgs s
    = JsSet.addAll s
        (flat_map (fun m => _findMentionedFiles this (content m))
                  (filter Spec.isUserTurn msgs)).
Proof.
  induction msgs as [|m msgs IH]; intros s; [reflexivity|].
  cbn [fold_left filter]. rewrite IH. unfold Spec.isUserTurn at 2.
  destruct (jseqb (role m) (str "user")); [|reflexivity].
  cbn [flat_map]. now rewrite addAll_app.
Qed.

(** C5. The continuity lookup takes the last 4 turns of the whole history
    (whatever their roles), keeps the user turns among those, runs
    [_findMentionedFiles] on each, and returns the union without duplicates
    in order of first appearance; turns older than the last 4 are not
    inspected. *)
Theorem recently_mentioned_last_four_turns :
  forall (this : ContextBuilder.t) (history : list Message),
    _findRecentlyMentionedFiles this history
    = Spec.recentlyMentioned this history
    /\ NoDup (_findRecentlyMentionedFiles this history)
    /\ (forall older recent : list Message,
          history = older ++ recent -> length recent = 4 ->
          _findRecentlyMentionedFiles this history
          = _findRecentlyMentionedFiles this recent).
Proof.
  intros this history.
  assert (E : _findRecentlyMentionedFiles this history
              = Spec.recentlyMentioned this history).
  { unfold _findRecentlyMentionedFiles, Spec.recentlyMentioned.
    rewrite recent_fold, sliceLast_lastTurns.
    apply ofList_firstAppearances. }
  split; [exact E|]. split.
  - rewrite E. apply firstAppearances_NoDup.
  - intros older recent -> Hlen.
    unfold _findRecentlyMentionedFiles.
    rewrite (sliceLast_app older recent Hlen).
    pose proof (sliceLast_app [] recent Hlen) as H0. simpl in H0.
    now rewrite H0.
Qed.

(** Six turns: the user turn that named [a.js] is older than the last four
    and is not looked at. *)
Lemma recently_mentioned_last_four_turns_witness :
  _findRecentlyMentionedFiles Scenario.builder5
    [ Msg (str "user") (str "a.js"); Msg (str "assistant") (str "ok");
      Msg (str "user") (str "b.js"); Msg (str "assistant") (str "c.js");
      Msg (str "user") (str "and then?"); Msg (str "assistant") (str "ok") ]
  = [str "b.js"].
Proof.
  destruct (recently_mentioned_last_four_turns Scenario.builder5
              [ Msg (str "user") (str "a.js");
                Msg (str "assistant") (str "ok");
                Msg (str "user") (str "b.js");
                Msg (str "assistant") (str "c.js");
                Msg (str "user") (str "and then?");
                Msg (str "assistant") (str "ok") ]) as (_ & _ & H).
  rewrite (H [ Msg (str "user") (str "a.js");
               Msg (str "assistant") (str "ok") ]
             [ Msg (str "user") (str "b.js");
               Msg (str "assistant") (str "c.js");
               Msg (str "user") (str "and then?");
               Msg (str "assistant") (str "ok") ] eq_refl eq_refl).
  vm_compute. reflexivity.
Defined.

(** ** The packing loop *)

Section Packing.

Variable E : Node.env.
Variable this : ContextBuilder.t.

Lemma blocks_app (l1 l2 : list jsstring) :
  blocks E this (l1 ++ l2) = blocks E this l1 ++ blocks E this l2.
Proof. unfold blocks. now rewrite map_app, concat_app. Qed.

Lemma blocksLength_app (l1 l2 : list jsstring) :
  blocksLength E this (l1 ++ l2)
  = blocksLength E this l1 + blocksLength E this l2.
Proof. unfold blocksLength. now rewrite map_app, list_sum_app. Qed.

Lemma blocks_length (l : list jsstring) :
  length (blocks E this l) = blocksLength E this l.
Proof.
  unfold blocks, blocksLength.
  induction l as [|p l IH]; simpl; [reflexivity|].
  now rewrite length_app, IH.
Qed.

(** The loop only ever appends to [context]. *)
Lemma packLoop_context (files : list jsstring) :
  forall (context : jsstring) (currentLength : nat),
    packLoop E this files context currentLength
    = context ++ packLoop E this files [] currentLength.
Proof.
  induction files as [|p files IH]; intros context cur; cbn [packLoop app].
  - now rewrite app_nil_r.
  - destruct (maxContextLength this <? cur + _); [reflexivity|].
    rewrite IH, (IH (_buildFileContext E this p)).
    now rewrite app_assoc.
Qed.

(** What the loop appends is bounded by the room left in the budget and one
    notice. *)
Lemma packLoop_bound (files : list jsstring) :
  forall currentLength : nat,
    currentLength <= maxContextLength this ->
    length (packLoop E this files [] currentLength) + currentLength
    <= maxContextLength this + length limitNotice.
Proof.
  induction files as [|p files IH]; intros cur Hcur; cbn [packLoop app].
  - cbn [length]. lia.
  - destruct (Nat.ltb_spec (maxContextLength this)
                (cur + length (_buildFileContext E this p))) as [Hover|Hfit].
    + lia.
    + rewrite packLoop_context, length_app.
      specialize (IH _ Hfit). lia.
Qed.

(** As long as the running total stays within the budget, blocks are
    appended whole and in order. *)
Lemma packLoop_fits (l1 l2 : list jsstring) :
  forall currentLength : nat,
    currentLength + blocksLength E this l1 <= maxContextLength this ->
    packLoop E this (l1 ++ l2) [] currentLength
    = blocks E this l1
      ++ packLoop E this l2 [] (currentLength + blocksLength E this l1).
Proof.
  induction l1 as [|p l1 IH]; intros cur Hfit.
  - simpl. now rewrite Nat.add_0_r.
  - change (blocksLength E this (p :: l1))
      with (length (_buildFileContext E this p) + blocksLength E this l1)
      in *.
    change (blocks E this (p :: l1))
      with (_buildFileContext E this p ++ blocks E this l1).
    cbn [packLoop app].
    destruct (Nat.ltb_spec (maxContextLength this)
                (cur + length (_buildFileContext E this p))) as [Hover|_].
    + lia.
    + rewrite packLoop_context, IH by lia.
      now rewrite <- app_assoc, Nat.add_assoc.
Qed.

Lemma packLoop_overflow (p : jsstring) (rest : list jsstring)
      (currentLength : nat) :
  maxContextLength this
  < currentLength + length (_buildFileContext E this p) ->
  packLoop E this (p :: rest) [] currentLength = limitNotice.
Proof.
  intros H. cbn [packLoop app].
  now destruct (Nat.ltb_spec (maxContextLength this)
                  (currentLength + length (_buildFileContext E this p)));
    [|lia].
Qed.

(** The returned string, for a selection that is not empty *)
Lemma buildContext_nonempty (userMessage : jsstring)
      (history : list Message) :
  filesToInclude this userMessage history <> [] ->
  fst (buildContext E this userMessage history)
  = headerLine1 ++ headerLine2
    ++ packLoop E this (filesToInclude this userMessage history) [] 0
    ++ footerLine.
Proof.
  intros H. unfold buildContext. cbn [fst].
  destruct (filesToInclude this userMessage history) as [|p l] eqn:Efiles;
    [congruence|].
  cbn [JsSet.size length Nat.ltb Nat.leb].
  rewrite packLoop_context. cbn [app].
  now rewrite <- !app_assoc.
Qed.

Lemma buildContext_empty (userMessage : jsstring) (history : list Message) :
  filesToInclude this userMessage history = [] ->
  fst (buildContext E this userMessage history) = [].
Proof. intros H. unfold buildContext. now rewrite H. Qed.

End Packing.

(** ** The length of the packed context *)

(** C1, amended.  The running total that is compared with the budget counts
    file blocks only, so the returned string is at most the budget plus the
    fixed lengths of the two header lines, the notice and the footer. *)
Theorem context_length_bound :
  forall (E : Node.env) (this : ContextBuilder.t) (userMessage : jsstring)
         (history : list Message),
    length (fst (buildContext E this userMessage history))
    <= maxContextLength this
       + (length headerLine1 + length headerLine2
          + length limitNotice + length footerLine).
Proof.
  intros E this userMessage history.
  destruct (filesToInclude this userMessage history) as [|p l] eqn:Efiles.
  - rewrite buildContext_empty by assumption. cbn [length]. lia.
  - rewrite buildContext_nonempty by congruence.
    rewrite !length_app.
    pose proof (packLoop_bound E this
                  (filesToInclude this userMessage history) (Nat.le_0_l _)).
    lia.
Qed.

(** C1 as stated fails: four files of 1900 units each fit the budget of 8000
    as blocks (7980 units), and the header and footer come on top. *)
Lemma context_length_exceeds_budget_plus_notice :
  ~ (length (fst (buildContext (Posix.env (Scenario.fiveFiles 1900))
                               Scenario.builder5
                               (str "a.js b.js c.js d.js") []))
     <= maxContextLength Scenario.builder5 + length limitNotice).
Proof.
  intros H. apply Nat.leb_le in H. revert H. vm_compute. discriminate.
Qed.

(** ** Reaching the budget *)

(** C2. When the block of [p] would take the running total over the budget,
    the output holds the blocks before it whole, then one notice, then the
    footer: nothing of [p]'s block and nothing of the paths after it. *)
Theorem overflow_omits_block_and_stops :
  forall (E : Node.env) (this : ContextBuilder.t) (userMessage : jsstring)
         (history : list Message) (included : list jsstring) (p : jsstring)
         (rest : list jsstring),
    filesToInclude this userMessage history = included ++ p :: rest ->
    blocksLength E this included <= maxContextLength this ->
    maxContextLength this
    < blocksLength E this included + length (_buildFileContext E this p) ->
    fst (buildContext E this userMessage history)
    = headerLine1 ++ headerLine2 ++ blocks E this included
      ++ limitNotice ++ footerLine.
Proof.
  intros E this userMessage history included p rest Hsel Hfit Hover.
  rewrite buildContext_nonempty by selection_nonempty Hsel.
  rewrite Hsel, packLoop_fits by (simpl; assumption).
  rewrite packLoop_overflow by (simpl; assumption).
  now rewrite <- !app_assoc.
Qed.

(** Budget 100 and two blocks of 80 units: the first block, the notice. *)
Lemma overflow_omits_block_and_stops_witness :
  length (_buildFileContext (Posix.env Scenario.emptyDisk)
            Scenario.builder100 Scenario.longA) = 80
  /\ length (_buildFileContext (Posix.env Scenario.emptyDisk)
               Scenario.builder100 Scenario.longB) = 80
  /\ fst (buildContext (Posix.env Scenario.emptyDisk) Scenario.builder100
            (Scenario.longA ++ str " " ++ Scenario.longB) [])
     = headerLine1 ++ headerLine2
       ++ blocks (Posix.env Scenario.emptyDisk) Scenario.builder100
            [Scenario.longA]
       ++ limitNotice ++ footerLine.
Proof.
  split; [vm_compute; reflexivity|].
  split; [vm_compute; reflexivity|].
  apply (@overflow_omits_block_and_stops
           (Posix.env Scenario.emptyDisk) Scenario.builder100
           (Scenario.longA ++ str " " ++ Scenario.longB) []
           [Scenario.longA] Scenario.longB []).
  - vm_compute. reflexivity.
  - computed_le.
  - computed_lt.
Defined.

(** ** One file's block *)

(** C6. A file longer than 2000 units is rendered as its first 2000 units
    followed by the truncation marker; a file of at most 2000 units is
    rendered in full, directly followed by the closing separator.  (An empty
    file is falsy and gets the placeholder block, which holds no marker
    either.) *)
Theorem file_block_truncation :
  forall (E : Node.env) (this : ContextBuilder.t) (filePath content : jsstring),
    FileManager.readFile E (fileManager this) filePath = Some content ->
    (2000 < length content ->
     _buildFileContext E this filePath
     = framed filePath (substring0 2000 content ++ truncatedMarker)
     /\ length (substring0 2000 content) = 2000)
    /\ (0 < length content <= 2000 ->
        _buildFileContext E this filePath = framed filePath content)
    /\ (length content = 0 ->
        _buildFileContext E this filePath = placeholder filePath).
Proof.
  intros E this filePath content Hread.
  unfold _buildFileContext. rewrite Hread.
  destruct content as [|c content].
  - cbn [length]. repeat split; intros; try lia; reflexivity.
  - split; [|split].
    + intros Hlong. apply Nat.ltb_lt in Hlong as Hb. rewrite Hb.
      split; [reflexivity|].
      unfold substring0. rewrite length_firstn. lia.
    + intros [_ Hshort]. apply Nat.ltb_ge in Hshort. now rewrite Hshort.
    + cbn [length]. lia.
Qed.

(** A file of 5000 units is cut to 2000 and marked, a file of 500 units is
    rendered in full. *)
Lemma file_block_truncation_witness :
  _buildFileContext (Posix.env Scenario.twoSizes) Scenario.builderSizes
    (str "big.js")
  = framed (str "big.js") (Scenario.filler 2000 ++ truncatedMarker)
  /\ _buildFileContext (Posix.env Scenario.twoSizes) Scenario.builderSizes
       (str "small.js")
     = framed (str "small.js") (Scenario.filler 500).
Proof.
  split.
  - destruct (@file_block_truncation (Posix.env Scenario.twoSizes)
                Scenario.builderSizes (str "big.js") (Scenario.filler 5000)
                eq_refl) as [H _].
    destruct H as [H _].
    + computed_lt.
    + rewrite H. reflexivity.
  - destruct (@file_block_truncation (Posix.env Scenario.twoSizes)
                Scenario.builderSizes (str "small.js") (Scenario.filler 500)
                eq_refl) as [_ [H _]].
    apply H. split.
    + computed_lt.
    + computed_le.
Defined.

(** ** Unreadable files *)

(** C7, amended.  A selected file whose read fails is rendered as the
    placeholder block under its own path; when the blocks of the files
    selected before it and the placeholder fit the budget together, the
    placeholder stands in the output where the file's block would, and the
    loop goes on with the rest of the selection from the running total after
    it. *)
Theorem unreadable_file_gets_placeholder :
  forall (E : Node.env) (this : ContextBuilder.t) (p : jsstring),
    FileManager.readFile E (fileManager this) p = None ->
    _buildFileContext E this p = placeholder p
    /\ forall (userMessage : jsstring) (history : list Message)
              (included rest : list jsstring),
        filesToInclude this userMessage history = included ++ p :: rest ->
        blocksLength E this (included ++ [p]) <= maxContextLength this ->
        fst (buildContext E this userMessage history)
        = headerLine1 ++ headerLine2 ++ blocks E this included
          ++ placeholder p
          ++ packLoop E this rest []
               (blocksLength E this (included ++ [p]))
          ++ footerLine.
Proof.
  intros E this p Hread.
  assert (Hp : _buildFileContext E this p = placeholder p).
  { unfold _buildFileContext. now rewrite Hread. }
  split; [exact Hp|].
  intros userMessage history included rest Hsel Hfit.
  rewrite buildContext_nonempty by selection_nonempty Hsel.
  rewrite Hsel.
  replace (included ++ p :: rest) with ((included ++ [p]) ++ rest)
    by now rewrite <- app_assoc.
  rewrite packLoop_fits by (simpl; assumption).
  rewrite blocks_app. unfold blocks at 2. cbn [map concat].
  rewrite Hp, app_nil_r. cbn [Nat.add].
  now rewrite <- !app_assoc.
Qed.

(** [a.js] was deleted after the scan; [b.js] is still rendered after its
    placeholder. *)
Lemma unreadable_file_gets_placeholder_witness :
  _buildFileContext (Posix.env (Scenario.withoutA 10)) Scenario.builder5
    (str "a.js") = placeholder (str "a.js")
  /\ fst (buildContext (Posix.env (Scenario.withoutA 10)) Scenario.builder5
            (str "a.js b.js") [])
     = headerLine1 ++ headerLine2 ++ placeholder (str "a.js")
       ++ framed (str "b.js") (Scenario.filler 10) ++ footerLine.
Proof.
  destruct (@unreadable_file_gets_placeholder
              (Posix.env (Scenario.withoutA 10)) Scenario.builder5
              (str "a.js") eq_refl)
    as [Hp H].
  split; [exact Hp|].
  rewrite (H (str "a.js b.js") [] [] [str "b.js"]).
  - vm_compute. reflexivity.
  - vm_compute. reflexivity.
  - computed_le.
Defined.

(** C7 as stated fails: [e.js] was deleted after the scan and is selected
    last; the blocks of [a.js] to [d.js] take 7988 of the 8000 units, the
    placeholder of 41 units does not fit, and the output ends with the notice
    and holds no placeholder. *)
Lemma unreadable_file_dropped_by_budget :
  FileManager.readFile (Posix.env (Scenario.withoutE 1902))
    Scenario.manager5 (str "e.js") = None
  /\ filesToInclude Scenario.builder5 (str "a.js b.js c.js d.js e.js") []
     = [str "a.js"; str "b.js"; str "c.js"; str "d.js"; str "e.js"]
  /\ fst (buildContext (Posix.env (Scenario.withoutE 1902))
            Scenario.builder5 (str "a.js b.js c.js d.js e.js") [])
     = headerLine1 ++ headerLine2
       ++ blocks (Posix.env (Scenario.withoutE 1902)) Scenario.builder5
            [str "a.js"; str "b.js"; str "c.js"; str "d.js"]
       ++ limitNotice ++ footerLine
  /\ includes
       (fst (buildContext (Posix.env (Scenario.withoutE 1902))
               Scenario.builder5 (str "a.js b.js c.js d.js e.js") []))
       readError = false
  /\ includes
       (fst (buildContext (Posix.env (Scenario.withoutE 1902))
               Scenario.builder5 (str "a.js b.js c.js d.js e.js") []))
       (str "FILE: e.js") = false.
Proof.
  split; [|split; [|split; [|split]]]; vm_compute; reflexivity.
Qed.

(** ** Determinism *)

Section SameIndex.

Variables this other : ContextBuilder.t.
Hypothesis same_manager : fileManager this = fileManager other.
Hypothesis same_budget : maxContextLength this = maxContextLength other.

Lemma _findMentionedFiles_same (message : jsstring) :
  _findMentionedFiles this message = _findMentionedFiles other message.
Proof.
  unfold _findMentionedFiles, patternPass, keywordPass, keywordEntry.
  now rewrite same_manager.
Qed.

Lemma filesToInclude_same (userMessage : jsstring) (history : list Message) :
  filesToInclude this userMessage history
  = filesToInclude other userMessage history.
Proof.
  unfold filesToInclude, _findRecentlyMentionedFiles.
  rewrite _findMentionedFiles_same. do 2 f_equal.
  generalize (@nil jsstring).
  induction (sliceLast 4 history) as [|m l IH]; intros s; [reflexivity|].
  cbn [fold_left]. now rewrite _findMentionedFiles_same, IH.
Qed.

Lemma _buildFileContext_same (E : Node.env) (filePath : jsstring) :
  _buildFileContext E this filePath = _buildFileContext E other filePath.
Proof. unfold _buildFileContext. now rewrite same_manager. Qed.

Lemma packLoop_same (E : Node.env) (files : list jsstring) :
  forall (context : jsstring) (currentLength : nat),
    packLoop E this files context currentLength
    = packLoop E other files context currentLength.
Proof.
  induction files as [|p files IH]; intros context cur; [reflexivity|].
  cbn [packLoop].
  now rewrite _buildFileContext_same, same_budget, IH.
Qed.

(** The returned string depends on the index and the budget only, not on
    [currentContext]. *)
Lemma buildContext_same (E : Node.env) (userMessage : jsstring)
      (history : list Message) :
  fst (buildContext E this userMessage history)
  = fst (buildContext E other userMessage history).
Proof.
  unfold buildContext. cbn [fst].
  now rewrite filesToInclude_same, packLoop_same.
Qed.

End SameIndex.

(** C9. [buildContext] writes [currentContext] and reads nothing it writes:
    a second call with the same message and history, on the object the first
    call left behind and with the same index and files, returns the same
    string and leaves the same object; so does a call made after
    [includeFiles] or [clearContext]. *)
Theorem buildContext_twice_same_output :
  forall (E : Node.env) (this : ContextBuilder.t) (userMessage : jsstring)
         (history : list Message) (extra : list jsstring),
    fst (buildContext E (snd (buildContext E this userMessage history))
                      userMessage history)
    = fst (buildContext E this userMessage history)
    /\ snd (buildContext E (snd (buildContext E this userMessage history))
                         userMessage history)
       = snd (buildContext E this userMessage history)
    /\ fst (buildContext E
              (includeFiles (snd (buildContext E this userMessage history))
                            extra)
              userMessage history)
       = fst (buildContext E this userMessage history)
    /\ fst (buildContext E
              (clearContext (snd (buildContext E this userMessage history)))
              userMessage history)
       = fst (buildContext E this userMessage history).
Proof.
  intros E this userMessage history extra.
  assert (H : forall other,
             fileManager other = fileManager this ->
             maxContextLength other = maxContextLength this ->
             buildContext E other userMessage history
             = buildContext E this userMessage history).
  { intros other Hm Hb.
    rewrite (surjective_pairing (buildContext E other userMessage history)),
      (surjective_pairing (buildContext E this userMessage history)).
    f_equal.
    - now apply buildContext_same.
    - unfold buildContext. cbn [snd].
      now rewrite Hm, Hb, (filesToInclude_same other this Hm). }
  split; [|split; [|split]]; now rewrite H.
Qed.

(** ** Introspection *)

(** C10. After [buildContext], [getCurrentContext] lists the whole
    deduplicated selection of the turn, the union of the files of the message
    and of the recent turns in order of first appearance, whether or not
    their blocks were packed; it can name a file that has no block in the
    returned string. *)
Theorem current_context_is_full_selection :
  (forall (E : Node.env) (this : ContextBuilder.t) (userMessage : jsstring)
          (history : list Message),
      getCurrentContext (snd (buildContext E this userMessage history))
      = Spec.firstAppearances
          (_findMentionedFiles this userMessage
           ++ _findRecentlyMentionedFiles this history))
  /\ (exists (E : Node.env) (this : ContextBuilder.t)
             (userMessage : jsstring) (history : list Message)
             (p : jsstring),
         In p (getCurrentContext
                 (snd (buildContext E this userMessage history)))
         /\ includes (fst (buildContext E this userMessage history))
                     (str "FILE: " ++ p) = false).
Proof.
  split.
  - intros E this userMessage history.
    unfold getCurrentContext, buildContext. cbn [snd currentContext].
    unfold filesToInclude. apply ofList_firstAppearances.
  - exists (Posix.env (Scenario.fiveFiles 2001)), Scenario.builder5,
      (str "a.js b.js c.js d.js e.js"), [], (str "e.js").
    split.
    + vm_compute. tauto.
    + vm_compute. reflexivity.
Qed.

(** ** The keyword table *)

(** The cap of [slice(0, 3)] sits inside the loop over the patterns of a
    keyword: it bounds what one pattern contributes. *)
Lemma keyword_entry_bound (this : ContextBuilder.t)
      (lowerMessage keyword : jsstring) (patterns : list jsstring) :
  length (keywordEntry this lowerMessage (keyword, patterns))
  <= 3 * length patterns.
Proof.
  unfold keywordEntry.
  destruct (includes lowerMessage keyword); [|simpl; lia].
  induction patterns as [|pat patterns IH]; [simpl; lia|].
  cbn [flat_map]. rewrite length_app, length_map.
  unfold sliceFirst at 1.
  pose proof (firstn_le_length 3
                (FileManager.findFiles (fileManager this) pat)).
  cbn [length]. lia.
Qed.

(** C4 at a failing input.  The project holds [main.js], [main.py],
    [index.js] and [app.js]; the message is [main].  No literal pattern
    matches, and keyword [main] alone contributes four files, one through
    each of four of its patterns. *)
Theorem keyword_main_contributes_four_files :
  patternPass (constructor Scenario.managerMain) (str "main") = []
  /\ keywordEntry (constructor Scenario.managerMain)
       (toLowerCase (str "main"))
       (str "main",
        [str "main.js"; str "main.py"; str "index.js"; str "app.js";
         str "main.cpp"])
     = [str "main.js"; str "main.py"; str "index.js"; str "app.js"]
  /\ keywordPass (constructor Scenario.managerMain) (toLowerCase (str "main"))
     = [str "main.js"; str "main.py"; str "index.js"; str "app.js"]
  /\ _findMentionedFiles (constructor Scenario.managerMain) (str "main")
     = [str "main.js"; str "main.py"; str "index.js"; str "app.js"].
Proof. repeat split; vm_compute; reflexivity. Qed.

(** ** Reading a file *)

(** [readFile] returns text exactly when the path as given exists for [fs]
    and the read of the resolved path succeeds; every other case, a throwing
    read included, returns [null]. *)
Lemma readFile_Some (E : Node.env) (this : FileManager.t)
      (filePath content : jsstring) :
  FileManager.readFile E this filePath = Some content
  <-> Node.existsSync E filePath = true
      /\ Node.readFileSync E
           (if Node.isAbsolute E filePath then filePath
            else Node.join E (projectPath this) filePath)
         = Node.Return content.
Proof.
  unfold FileManager.readFile.
  destruct (Node.existsSync E filePath); cbn [negb].
  - destruct (Node.readFileSync E _) as [c|code]; split.
    + intros [= ->]. now split.
    + now intros [_ [= ->]].
    + discriminate.
    + intros [_ H]. discriminate.
  - split; [discriminate | intros [H _]; discriminate].
Qed.

(** C8 at a failing input.  The manager is rooted at [/proj], the process
    runs in [/other], and [/proj/a.js] is a readable file.  The relative
    path is joined to the project root, and reading the joined path returns
    the text, but the existence test is made on the path as given, which
    [fs] resolves against the working directory: [readFile] returns
    [null]. *)
Theorem readFile_tests_existence_against_cwd :
  Node.join (Posix.env Scenario.elsewhere)
    (projectPath Scenario.managerElsewhere) (str "a.js")
  = str "/proj/a.js"
  /\ Node.readFileSync (Posix.env Scenario.elsewhere) (str "/proj/a.js")
     = Node.Return (str "let a = 1;")
  /\ Node.existsSync (Posix.env Scenario.elsewhere) (str "a.js") = false
  /\ FileManager.readFile (Posix.env Scenario.elsewhere)
       Scenario.managerElsewhere (str "a.js") = None.
Proof. repeat split; vm_compute; reflexivity. Qed.

(** ** Literal file names in a message *)

Section Matching.

Variable P : ascii -> bool.

Lemma plus_units (c : ascii -> bool) (k : jsstring -> option nat) :
  (forall a, c a = true -> P a = true) ->
  (forall s n, k s = Some n ->
               n <= length s /\ forallb P (firstn n s) = true) ->
  forall s n, Regex.plus c k s = Some n ->
              n <= length s /\ forallb P (firstn n s) = true.
Proof.
  intros Hc Hk. induction s as [|a s IH]; intros n; cbn [Regex.plus].
  - discriminate.
  - destruct (c a) eqn:Ea; [|discriminate].
    destruct (Regex.plus c k s) as [m|] eqn:Em.
    + intros [= <-]. destruct (IH m eq_refl) as [Hle Hall].
      cbn [length firstn forallb]. rewrite Hall, (Hc a Ea).
      split; [lia | reflexivity].
    + destruct (k s) as [m|] eqn:Ek; [|discriminate].
      intros [= <-]. destruct (Hk s m Ek) as [Hle Hall].
      cbn [length firstn forallb]. rewrite Hall, (Hc a Ea).
      split; [lia | reflexivity].
Qed.

Lemma exec_units (r : Regex.t) :
  within P r ->
  forall s n, Regex.exec r s = Some n ->
              n <= length s /\ forallb P (firstn n s) = true.
Proof.
  induction 1 as [|i r Hi Hr IH]; cbn [Regex.exec].
  - intros s n [= <-]. split; [lia | reflexivity].
  - destruct i as [c|c].
    + intros [|a s] n; [discriminate|].
      destruct (c a) eqn:Ea; [|discriminate].
      destruct (Regex.exec r s) as [m|] eqn:Em; [|discriminate].
      intros [= <-]. destruct (IH s m Em) as [Hle Hall].
      cbn [length firstn forallb]. rewrite Hall, (Hi a Ea).
      split; [lia | reflexivity].
    + apply plus_units; assumption.
Qed.

(** A match cannot run over a unit outside [P]. *)
Lemma exec_stops (r : Regex.t) (a : jsstring) (q : ascii)
      (rest : jsstring) (n : nat) :
  within P r -> P q = false ->
  Regex.exec r (a ++ q :: rest) = Some n ->
  n <= length a /\ firstn n (a ++ q :: rest) = firstn n a
  /\ forallb P (firstn n a) = true.
Proof.
  intros Hr Hq Hex. destruct (exec_units Hr _ Hex) as [_ Hall].
  assert (Hle : n <= length a).
  { destruct (Nat.le_gt_cases n (length a)) as [|Hgt]; [assumption|].
    rewrite firstn_app, forallb_app in Hall.
    apply andb_prop in Hall as [_ Hall].
    destruct (n - length a) as [|d] eqn:Ed; [lia|].
    cbn [firstn forallb] in Hall. rewrite Hq in Hall. discriminate. }
  assert (Hfirst : firstn n (a ++ q :: rest) = firstn n a).
  { rewrite firstn_app.
    replace (n - length a) with 0 by lia. cbn [firstn]. apply app_nil_r. }
  rewrite Hfirst in Hall. repeat split; assumption.
Qed.

(** Whatever was matched before it, the search is at rest once it has passed
    a unit outside [P]. *)
Lemma scan_reaches (r : Regex.t) (q : ascii) (rest : jsstring) :
  within P r -> P q = false ->
  forall (pre : jsstring) (skip : nat),
    skip <= length pre ->
    exists found,
      Regex.scan r skip (pre ++ q :: rest) = found ++ Regex.scan r 0 rest.
Proof.
  intros Hr Hq. induction pre as [|x pre IH]; intros skip Hskip.
  - cbn [length] in Hskip. replace skip with 0 by lia.
    cbn [app Regex.scan].
    destruct (Regex.exec r (q :: rest)) as [n|] eqn:Ex.
    + destruct (@exec_stops r [] q rest n Hr Hq Ex) as [Hn _].
      cbn [length] in Hn. replace n with 0 by lia.
      now exists [firstn 0 (q :: rest)].
    + now exists [].
  - cbn [app Regex.scan]. destruct skip as [|k].
    + destruct (Regex.exec r (x :: pre ++ q :: rest)) as [n|] eqn:Ex.
      * destruct (@exec_stops r (x :: pre) q rest n Hr Hq Ex) as [Hn _].
        cbn [length] in Hn.
        destruct (IH (pred n)) as [found Hfound]; [lia|].
        rewrite Hfound.
        now exists (firstn n (x :: pre ++ q :: rest) :: found).
      * apply IH. lia.
    + apply IH. cbn [length] in Hskip. lia.
Qed.

(** If the pattern matches somewhere inside a region that ends before a unit
    outside [P], the search, at rest at the start of the region, reports a
    match that lies inside the region. *)
Lemma scan_finds (r : Regex.t) (q : ascii) (post : jsstring) :
  within P r -> P q = false ->
  forall (a b : jsstring),
    Regex.exec r (b ++ q :: post) <> None ->
    exists m u v,
      In m (Regex.scan r 0 ((a ++ b) ++ q :: post))
      /\ a ++ b = u ++ m ++ v
      /\ forallb P m = true.
Proof.
  intros Hr Hq a b Hb.
  assert (Hhere : forall (region : jsstring) (n : nat),
             Regex.exec r (region ++ q :: post) = Some n ->
             exists m u v,
               In m (Regex.scan r 0 (region ++ q :: post))
               /\ region = u ++ m ++ v /\ forallb P m = true).
  { intros region n Ex.
    destruct (@exec_stops r region q post n Hr Hq Ex) as (Hn & Hf & Hall).
    exists (firstn n region), [], (skipn n region).
    split; [|split].
    - destruct region as [|x region]; cbn [app Regex.scan];
        cbn [app] in Ex; rewrite Ex; left; exact Hf.
    - cbn [app]. symmetry. apply firstn_skipn.
    - exact Hall. }
  induction a as [|x a IH].
  - cbn [app]. destruct (Regex.exec r (b ++ q :: post)) as [n|] eqn:Ex;
      [|congruence].
    now apply (Hhere b n).
  - destruct (Regex.exec r ((x :: a ++ b) ++ q :: post)) as [n|] eqn:Ex.
    + now apply (Hhere (x :: a ++ b) n).
    + destruct IH as (m & u & v & Hin & Hsplit & Hall).
      exists m, (x :: u), v. split; [|split].
      * cbn [app Regex.scan]. cbn [app] in Ex. rewrite Ex. exact Hin.
      * cbn [app]. now rewrite Hsplit.
      * exact Hall.
Qed.

End Matching.

Lemma first_pattern_within :
  within isWordOrDot [Plus isWord; One (isChar dot); Plus isWord].
Proof.
  unfold within, isWordOrDot.
  repeat constructor; cbn [Regex.classOf]; intros a ->;
    auto using orb_true_r.
Qed.

Lemma quote_not_wordOrDot (q : ascii) :
  isQuote q = true -> isWordOrDot q = false.
Proof.
  destruct q as [[] [] [] [] [] [] [] []]; vm_compute; congruence.
Qed.

Lemma wordOrDot_keeps (m : jsstring) :
  forallb isWordOrDot m = true -> Regex.removeAll isQuote m = m.
Proof.
  unfold Regex.removeAll.
  induction m as [|c m IH]; cbn [forallb filter]; [reflexivity|].
  intros H. apply andb_prop in H as [Hc Hm].
  destruct (isQuote c) eqn:Eq.
  - apply quote_not_wordOrDot in Eq. congruence.
  - cbn [negb]. now rewrite IH.
Qed.

Lemma hasWordDotWord_split (s : jsstring) :
  hasWordDotWord s = true ->
  exists a c1 c2 b,
    s = a ++ c1 :: dot :: c2 :: b /\ isWord c1 = true /\ isWord c2 = true.
Proof.
  induction s as [|c1 s IH]; cbn [hasWordDotWord]; [discriminate|].
  intros H. apply orb_prop in H as [H|H].
  - destruct s as [|d [|c2 b]]; try discriminate.
    apply andb_prop in H as [H H2]. apply andb_prop in H as [H1 Hd].
    unfold isChar in Hd. apply Ascii.eqb_eq in Hd. subst d.
    now exists [], c1, c2, b.
  - destruct (IH H) as (a & x & y & b & -> & Hx & Hy).
    now exists (c1 :: a), x, y, b.
Qed.

Lemma first_pattern_matches (c1 c2 : ascii) (rest : jsstring) :
  isWord c1 = true -> isWord c2 = true ->
  Regex.exec [Plus isWord; One (isChar dot); Plus isWord]
             (c1 :: dot :: c2 :: rest) <> None.
Proof.
  intros H1 H2. cbn [Regex.exec Regex.plus]. rewrite H1.
  change (isWord dot) with false. cbn iota.
  change (isChar dot dot) with true. cbn iota. rewrite H2.
  destruct (Regex.plus isWord (fun _ => Some 0) rest); discriminate.
Qed.

Lemma startsWith_app (m v : jsstring) : startsWith m (m ++ v) = true.
Proof.
  induction m as [|c m IH]; cbn [startsWith app]; [reflexivity|].
  now rewrite Ascii.eqb_refl, IH.
Qed.

Lemma includes_infix (u m v : jsstring) : includes (u ++ m ++ v) m = true.
Proof.
  induction u as [|c u IH]; cbn [app].
  - destruct (m ++ v) eqn:E; cbn [includes]; rewrite <- E;
      now rewrite startsWith_app.
  - cbn [includes]. rewrite IH. apply orb_true_r.
Qed.

Lemma findFilesIn_In (files : list ProjectFile) (lowerQuery : jsstring)
      (file : ProjectFile) :
  In file files ->
  includes (toLowerCase (name file)) lowerQuery = true
  \/ includes (toLowerCase (relativePath file)) lowerQuery = true ->
  In file (FileManager.findFilesIn files lowerQuery).
Proof.
  intros Hin Hq. induction files as [|f files IH]; [contradiction|].
  cbn [FileManager.findFilesIn].
  destruct Hin as [-> | Hin].
  - destruct (includes (toLowerCase (name file)) lowerQuery);
      [now left|].
    destruct Hq as [Hq | Hq]; [discriminate|]. rewrite Hq. now left.
  - specialize (IH Hin).
    destruct (includes (toLowerCase (name f)) lowerQuery); [now right|].
    destruct (includes (toLowerCase (relativePath f)) lowerQuery);
      [now right | assumption].
Qed.

(** A query that occurs in the name or in the relative path of an indexed
    file finds that file. *)
Lemma findFiles_infix (this : FileManager.t) (file : ProjectFile)
      (u m v : jsstring) :
  In file (projectFiles this) ->
  name file = u ++ m ++ v \/ relativePath file = u ++ m ++ v ->
  In file (FileManager.findFiles this m).
Proof.
  intros Hin Hname. unfold FileManager.findFiles.
  apply findFilesIn_In; [assumption|].
  destruct Hname as [-> | ->]; [left | right];
    unfold toLowerCase; rewrite !map_app; apply includes_infix.
Qed.

(** A quoted [name.ext] that is the name or the relative path of an indexed
    file is selected, wherever it stands in the message. *)
Lemma quoted_literal_selected (this : ContextBuilder.t)
      (pre post literal : jsstring) (q : ascii) (file : ProjectFile) :
  isQuote q = true ->
  hasWordDotWord literal = true ->
  In file (projectFiles (fileManager this)) ->
  name file = literal \/ relativePath file = literal ->
  In (relativePath file)
     (_findMentionedFiles this (pre ++ q :: literal ++ q :: post)).
Proof.
  intros Hq Hshape Hin Hname.
  apply quote_not_wordOrDot in Hq.
  destruct (hasWordDotWord_split _ Hshape) as (a & c1 & c2 & b & -> & H1 & H2).
  destruct (@scan_reaches isWordOrDot _ q
              ((a ++ c1 :: dot :: c2 :: b) ++ q :: post)
              first_pattern_within Hq pre 0 (Nat.le_0_l _))
    as [found Hfound].
  destruct (@scan_finds isWordOrDot _ q post first_pattern_within Hq
              a (c1 :: dot :: c2 :: b))
    as (m & u & v & Hm & Hsplit & Hunits).
  { cbn [app]. now apply first_pattern_matches. }
  unfold _findMentionedFiles. apply ofList_In, in_or_app. left.
  unfold patternPass. apply in_flat_map.
  exists [Plus isWord; One (isChar dot); Plus isWord].
  split; [now left|].
  apply in_flat_map. exists m. split.
  - unfold Regex.matchAll. rewrite Hfound. apply in_or_app. now right.
  - rewrite (wordOrDot_keeps _ Hunits). apply in_map.
    apply findFiles_infix with (u := u) (v := v); [assumption|].
    rewrite <- Hsplit. assumption.
Qed.

Lemma block_label (E : Node.env) (this : ContextBuilder.t)
      (filePath : jsstring) :
  exists body,
    _buildFileContext E this filePath = str "FILE: " ++ filePath ++ nl ++ body.
Proof.
  unfold _buildFileContext.
  destruct (FileManager.readFile E (fileManager this) filePath)
    as [[|c content]|]; eexists; rewrite <- ?app_assoc; reflexivity.
Qed.

(** ** Quoted tokens *)

Lemma quote_is_special (q : ascii) :
  isQuote q = true ->
  isWord q = false /\ isChar dot q = false
  /\ In (quotePattern q) filePatterns.
Proof.
  destruct q as [[] [] [] [] [] [] [] []]; intros H; vm_compute in H;
    try discriminate H;
    (split; [reflexivity|]; split; [reflexivity|]);
    unfold filePatterns; cbn [In];
    first [ now (right; right; left)
          | now (right; right; right; left)
          | now (right; right; right; right; left) ].
Qed.

Lemma quote_free_without (q : ascii) (s : jsstring) :
  isQuote q = true ->
  forallb (fun a => negb (isQuote a)) s = true ->
  forallb (notChar q) s = true.
Proof.
  intros Hq Hs. apply forallb_forall. intros a Ha.
  apply (proj1 (forallb_forall _ _) Hs) in Ha.
  unfold notChar. destruct (Ascii.eqb_spec a q) as [-> | _];
    [|reflexivity].
  now rewrite Hq in Ha.
Qed.

Lemma removeAll_quote_free (s : jsstring) :
  forallb (fun a => negb (isQuote a)) s = true ->
  Regex.removeAll isQuote s = s.
Proof.
  intros H. unfold Regex.removeAll. now apply forallb_filter_id.
Qed.

Lemma exec_One (c : ascii -> bool) (r : Regex.t) (a : ascii)
      (s : jsstring) :
  Regex.exec (One c :: r) (a :: s)
  = if c a then option_map S (Regex.exec r s) else None.
Proof. reflexivity. Qed.

Lemma exec_Plus (c : ascii -> bool) (r : Regex.t) (s : jsstring) :
  Regex.exec (Plus c :: r) s = Regex.plus c (Regex.exec r) s.
Proof. reflexivity. Qed.

Lemma firstn_one_more {A} (l : list A) (x : A) (rest : list A) :
  firstn (S (length l)) (l ++ x :: rest) = l ++ [x].
Proof.
  induction l as [|a l IH]; [reflexivity|].
  cbn [length app]. now rewrite firstn_cons, IH.
Qed.

Section QuotePattern.

Variable q : ascii.
Hypothesis q_not_word : isWord q = false.
Hypothesis q_not_dot : isChar dot q = false.

Lemma isChar_self : isChar q q = true.
Proof. unfold isChar. apply Ascii.eqb_refl. Qed.

Lemma notChar_isChar (a : ascii) : notChar q a = true -> isChar q a = false.
Proof. unfold notChar, isChar. now destruct (Ascii.eqb a q). Qed.

(** The word characters of an extension, up to the closing quote *)
Lemma plus_word_quote (W : jsstring) :
  forall rest,
    forallb (notChar q) W = true ->
    Regex.plus isWord (Regex.exec [One (isChar q)]) (W ++ q :: rest)
    = match W with
      | [] => None
      | _ :: _ => if forallb isWord W then Some (S (length W)) else None
      end.
Proof.
  induction W as [|w W IH]; intros rest Hfree.
  - cbn [app Regex.plus]. now rewrite q_not_word.
  - cbn [forallb] in Hfree. apply andb_prop in Hfree as [_ Hfree].
    cbn [app Regex.plus forallb]. destruct (isWord w); [|reflexivity].
    rewrite (IH rest Hfree). destruct W as [|w' W']; cbn [andb].
    + cbn [app forallb length]. now rewrite exec_One, isChar_self.
    + destruct (forallb isWord (w' :: W')); [reflexivity|].
      cbn [forallb] in Hfree. apply andb_prop in Hfree as [Hw' _].
      cbn [app]. now rewrite exec_One, (notChar_isChar _ Hw').
Qed.

Lemma exec_extension (u : jsstring) :
  forall rest,
    forallb (notChar q) u = true ->
    Regex.exec [One (isChar dot); Plus isWord; One (isChar q)]
               (u ++ q :: rest)
    = if isExtension u then Some (S (length u)) else None.
Proof.
  intros rest Hfree. destruct u as [|d W].
  - cbn [app isExtension]. now rewrite exec_One, q_not_dot.
  - cbn [forallb] in Hfree. apply andb_prop in Hfree as [_ Hfree].
    cbn [app]. rewrite exec_One, exec_Plus.
    destruct (isChar dot d) eqn:Ed.
    + rewrite (plus_word_quote W rest Hfree).
      destruct W as [|w ws]; cbn [isExtension]; [reflexivity|].
      rewrite Ed. cbn [andb length].
      now destruct (forallb isWord (w :: ws)).
    + destruct W as [|w ws]; cbn [isExtension]; [reflexivity|].
      now rewrite Ed.
Qed.

Lemma plus_quoted_body (s : jsstring) :
  forall rest,
    forallb (notChar q) s = true ->
    Regex.plus (notChar q)
      (Regex.exec [One (isChar dot); Plus isWord; One (isChar q)])
      (s ++ q :: rest)
    = if hasExtension s then Some (S (length s)) else None.
Proof.
  induction s as [|c s IH]; intros rest Hfree.
  - cbn [app Regex.plus hasExtension]. unfold notChar.
    now rewrite Ascii.eqb_refl.
  - cbn [forallb] in Hfree. apply andb_prop in Hfree as [Hc Hfree].
    cbn [app Regex.plus hasExtension length]. rewrite Hc, (IH rest Hfree).
    destruct (hasExtension s).
    + now rewrite orb_true_r.
    + rewrite (exec_extension s rest Hfree), orb_false_r.
      now destruct (isExtension s).
Qed.

(** At a quote, the pattern matches up to the next quote when the text
    between the two has an extension, and not at all otherwise. *)
Lemma exec_quoted (s rest : jsstring) :
  forallb (notChar q) s = true ->
  Regex.exec (quotePattern q) (q :: s ++ q :: rest)
  = if hasExtension s then Some (S (S (length s))) else None.
Proof.
  intros Hfree. unfold quotePattern.
  rewrite exec_One, exec_Plus, isChar_self, (plus_quoted_body s rest Hfree).
  now destruct (hasExtension s).
Qed.

(** No match starts in a text without the quote. *)
Lemma scan_through (s : jsstring) :
  forall rest,
    forallb (notChar q) s = true ->
    Regex.scan (quotePattern q) 0 (s ++ rest)
    = Regex.scan (quotePattern q) 0 rest.
Proof.
  induction s as [|c s IH]; intros rest Hfree; [reflexivity|].
  cbn [forallb] in Hfree. apply andb_prop in Hfree as [Hc Hfree].
  cbn [app Regex.scan]. unfold quotePattern at 1.
  rewrite exec_One, (notChar_isChar _ Hc). now apply IH.
Qed.

Lemma scan_skip (r : Regex.t) (s : jsstring) :
  forall k rest,
    Regex.scan r (length s + k) (s ++ rest) = Regex.scan r k rest.
Proof.
  induction s as [|c s IH]; intros k rest; [reflexivity|].
  cbn [length app Nat.add Regex.scan]. apply IH.
Qed.

Lemma quote_comes_next (segs : list jsstring) (rest : jsstring) :
  exists after, flat_map (cons q) segs ++ q :: rest = q :: after.
Proof. destruct segs as [|s segs]; cbn [flat_map app]; now eexists. Qed.

(** The search pairs the quotes from the left. *)
Lemma scan_pairs (segs : list jsstring) :
  forall (taken : bool) (rest : jsstring),
    Forall (fun s => forallb (notChar q) s = true) segs ->
    exists found,
      Regex.scan (quotePattern q) (if taken then 1 else 0)
                 (flat_map (cons q) segs ++ q :: rest)
      = found
          ++ Regex.scan (quotePattern q)
               (if fold_left
                     (fun taken segment => negb taken && hasExtension segment)
                     segs taken
                then 1 else 0)
               (q :: rest).
Proof.
  induction segs as [|s segs IH]; intros taken rest Hfree.
  - now exists [].
  - inversion Hfree as [|s' segs' Hs Hsegs]; subst s' segs'.
    cbn [flat_map fold_left]. rewrite <- app_assoc. cbn [app].
    destruct (quote_comes_next segs rest) as [after Hafter].
    destruct taken; cbn [negb andb].
    + cbn [Regex.scan]. rewrite (scan_through s _ Hs). apply (IH false rest Hsegs).
    + cbn [Regex.scan]. rewrite Hafter, (exec_quoted s after Hs), <- Hafter.
      destruct (hasExtension s).
      * cbn [pred]. replace (S (length s)) with (length s + 1) by lia.
        rewrite scan_skip.
        destruct (IH true rest Hsegs) as [found Hfound].
        rewrite Hfound. eexists. rewrite app_comm_cons. reflexivity.
      * rewrite (scan_through s _ Hs). apply (IH false rest Hsegs).
Qed.

Lemma splitAt_pieces (s : jsstring) :
  exists s0 segs,
    splitAt q s = s0 :: segs
    /\ s = s0 ++ flat_map (cons q) segs
    /\ Forall (fun p => forallb (notChar q) p = true) (s0 :: segs).
Proof.
  induction s as [|c s (s0 & segs & Hsplit & Hs & Hfree)].
  - exists [], []. repeat split. constructor; [reflexivity | constructor].
  - cbn [splitAt]. rewrite Hsplit.
    destruct (Ascii.eqb_spec c q) as [-> | Hc].
    + exists [], (s0 :: segs). split; [reflexivity|]. split.
      * cbn [app flat_map]. now rewrite <- Hs.
      * constructor; [reflexivity | assumption].
    + exists (c :: s0), segs. split; [reflexivity|]. split.
      * cbn [app]. now rewrite <- Hs.
      * inversion Hfree as [|x l Hs0 Hsegs]; subst x l.
        constructor; [|assumption].
        cbn [forallb]. rewrite Hs0. unfold notChar.
        destruct (Ascii.eqb_spec c q); [contradiction | reflexivity].
Qed.

(** A quoted text with an extension is reported whole, quotes included,
    when its opening quote does not close an earlier token. *)
Lemma quoted_token_matched (pre literal post : jsstring) :
  forallb (notChar q) literal = true ->
  hasExtension literal = true ->
  quoteTaken q pre = false ->
  In (q :: literal ++ [q])
     (Regex.matchAll (quotePattern q) (pre ++ q :: literal ++ q :: post)).
Proof.
  intros Hfree Hext Hopen. unfold Regex.matchAll.
  destruct (splitAt_pieces pre) as (s0 & segs & Hsplit & Hpre & Hpieces).
  inversion Hpieces as [|x l Hs0 Hsegs]; subst x l.
  unfold quoteTaken in Hopen. rewrite Hsplit in Hopen. cbn [tl] in Hopen.
  rewrite Hpre, <- app_assoc, (scan_through s0 _ Hs0).
  destruct (@scan_pairs segs false (literal ++ q :: post) Hsegs)
    as [found Hfound].
  cbn [negb] in Hfound. rewrite Hfound, Hopen.
  apply in_or_app. right. cbn [Regex.scan].
  rewrite (exec_quoted literal post Hfree), Hext. left.
  rewrite firstn_cons. f_equal. apply firstn_one_more.
Qed.

End QuotePattern.

(** A quoted text without quote characters in it that ends in an extension
    and is the name or the relative path of an indexed file is selected
    through the pattern of its quotes. *)
Lemma quoted_token_selected (this : ContextBuilder.t)
      (pre post literal : jsstring) (q : ascii) (file : ProjectFile) :
  isQuote q = true ->
  forallb (fun a => negb (isQuote a)) literal = true ->
  hasExtension literal = true ->
  quoteTaken q pre = false ->
  In file (projectFiles (fileManager this)) ->
  name file = literal \/ relativePath file = literal ->
  In (relativePath file)
     (_findMentionedFiles this (pre ++ q :: literal ++ q :: post)).
Proof.
  intros Hq Hclean Hext Hopen Hin Hname.
  destruct (quote_is_special q Hq) as (Hword & Hdot & Hpattern).
  pose proof (quote_free_without q literal Hq Hclean) as Hfree.
  pose proof (@quoted_token_matched q Hword Hdot pre literal post
                Hfree Hext Hopen) as Hmatch.
  unfold _findMentionedFiles. apply ofList_In, in_or_app. left.
  unfold patternPass. apply in_flat_map.
  exists (quotePattern q). split; [assumption|].
  apply in_flat_map. exists (q :: literal ++ [q]). split; [assumption|].
  assert (Hstrip : Regex.removeAll isQuote (q :: literal ++ [q]) = literal).
  { unfold Regex.removeAll. cbn [filter]. rewrite Hq. cbn [negb].
    rewrite filter_app. cbn [filter]. rewrite Hq. cbn [negb].
    rewrite app_nil_r. now apply forallb_filter_id. }
  rewrite Hstrip. apply in_map.
  apply findFiles_infix with (u := []) (v := []); [assumption|].
  cbn [app]. now rewrite app_nil_r.
Qed.

(** C3, amended.  A message holds, between two quotes of one kind, the name
    or the relative path of an indexed file.  The file is selected when a
    word character stands on both sides of a dot in the quoted text, and
    also when the quoted text holds no quote character, ends in a dot and
    word characters after at least one other unit, and its opening quote
    does not close an earlier quoted token.  The returned string then holds
    the block labelled [FILE: <relativePath>] whenever the blocks of the
    files selected before it and its own fit the budget together. *)
Theorem quoted_filename_gets_block :
  forall (E : Node.env) (this : ContextBuilder.t) (history : list Message)
         (pre post literal : jsstring) (q : ascii) (file : ProjectFile),
    isQuote q = true ->
    In file (projectFiles (fileManager this)) ->
    name file = literal \/ relativePath file = literal ->
    hasWordDotWord literal = true
    \/ (forallb (fun a => negb (isQuote a)) literal = true
        /\ hasExtension literal = true
        /\ quoteTaken q pre = false) ->
    In (relativePath file)
       (filesToInclude this (pre ++ q :: literal ++ q :: post) history)
    /\ forall included rest : list jsstring,
        filesToInclude this (pre ++ q :: literal ++ q :: post) history
        = included ++ relativePath file :: rest ->
        blocksLength E this (included ++ [relativePath file])
        <= maxContextLength this ->
        exists body tail,
          fst (buildContext E this (pre ++ q :: literal ++ q :: post) history)
          = headerLine1 ++ headerLine2 ++ blocks E this included
            ++ (str "FILE: " ++ relativePath file ++ nl ++ body) ++ tail.
Proof.
  intros E this history pre post literal q file Hq Hin Hname Hshape.
  split.
  - unfold filesToInclude. apply ofList_In, in_or_app. left.
    destruct Hshape as [Hword | (Hclean & Hext & Hopen)].
    + now apply quoted_literal_selected.
    + now apply quoted_token_selected.
  - intros included rest Hsel Hfit.
    destruct (block_label E this (relativePath file)) as [body Hbody].
    exists body,
      (packLoop E this rest []
         (blocksLength E this (included ++ [relativePath file]))
       ++ footerLine).
    rewrite buildContext_nonempty by selection_nonempty Hsel.
    rewrite Hsel.
    replace (included ++ relativePath file :: rest)
      with ((included ++ [relativePath file]) ++ rest)
      by now rewrite <- app_assoc.
    rewrite packLoop_fits by (simpl; assumption).
    rewrite blocks_app. unfold blocks at 2. cbn [map concat].
    rewrite app_nil_r, Hbody. cbn [Nat.add].
    now rewrite <- !app_assoc.
Qed.

(** A quoted name with blanks and brackets and no word character before its
    dot: it is found through the pattern of its quotes. *)
Lemma quoted_filename_gets_block_witness :
  In (str "notes (1).txt")
     (filesToInclude (constructor Scenario.managerDash) Scenario.openNotes [])
  /\ exists body tail,
       fst (buildContext (Posix.env Scenario.dashDisk)
              (constructor Scenario.managerDash) Scenario.openNotes [])
       = headerLine1 ++ headerLine2
         ++ (str "FILE: " ++ str "notes (1).txt" ++ nl ++ body) ++ tail.
Proof.
  destruct (@quoted_filename_gets_block
              (Posix.env Scenario.dashDisk)
              (constructor Scenario.managerDash) []
              (str "open ") [] (str "notes (1).txt") dquote
              (Scenario.sourceFile Scenario.root (str ".txt")
                 (str "notes (1).txt")))
    as [Hin Hblock].
  - reflexivity.
  - vm_compute. tauto.
  - now left.
  - right. repeat split; reflexivity.
  - split; [exact Hin|].
    apply (Hblock [] []).
    + vm_compute. reflexivity.
    + computed_le.
Defined.

(** C3 as stated fails at three inputs.  [e.js] is quoted and indexed and is
    selected, but the blocks of [a.js], [b.js] and [c.js] (2117 units each)
    leave no room for a fourth, so the loop stops before [e.js].  In
    [Scenario.quotedDash] the indexed name [-.js] stands between two double
    quotes, but the pattern takes its opening quote as the end of the token
    it began at the quote before [ y.z]: nothing is selected.  In
    [Scenario.quotedInner] the quoted name holds a single quote, which is
    stripped from the match before the lookup: nothing is selected. *)
Lemma quoted_filename_without_block :
  (In (Scenario.sourceFile Scenario.root Scenario.js (str "e.js"))
      (projectFiles (fileManager Scenario.builder5))
   /\ Scenario.quotedE
      = str "a.js b.js c.js d.js " ++ dquote :: str "e.js" ++ [dquote]
   /\ In (str "e.js") (filesToInclude Scenario.builder5 Scenario.quotedE [])
   /\ includes
        (fst (buildContext (Posix.env (Scenario.fiveFiles 2001))
                           Scenario.builder5 Scenario.quotedE []))
        (str "FILE: e.js") = false)
  /\ (In (Scenario.sourceFile Scenario.root Scenario.js (str "-.js"))
         (projectFiles Scenario.managerDash)
      /\ Scenario.quotedDash
         = (dquote :: str "x" ++ [dquote]) ++ str " y.z"
           ++ dquote :: str "-.js" ++ [dquote]
      /\ fst (buildContext (Posix.env Scenario.dashDisk)
                (constructor Scenario.managerDash) Scenario.quotedDash [])
         = [])
  /\ (In (Scenario.sourceFile Scenario.root Scenario.js (str "x'-.js"))
         (projectFiles Scenario.managerDash)
      /\ Scenario.quotedInner
         = str "read " ++ dquote :: str "x'-.js" ++ [dquote]
      /\ fst (buildContext (Posix.env Scenario.dashDisk)
                (constructor Scenario.managerDash) Scenario.quotedInner [])
         = []).
Proof.
  split; [|split].
  - split; [vm_compute; tauto|]. split; [reflexivity|].
    split; [vm_compute; tauto|]. vm_compute. reflexivity.
  - split; [vm_compute; tauto|]. split; [reflexivity|].
    vm_compute. reflexivity.
  - split; [vm_compute; tauto|]. split; [reflexivity|].
    vm_compute. reflexivity.
Qed.

(** * Further properties of the code *)

(** ** What is selected for a turn *)

Lemma firstn_incl {A} (n : nat) (l : list A) (x : A) :
  In x (firstn n l) -> In x l.
Proof.
  intros H. rewrite <- (firstn_skipn n l). apply in_or_app. now left.
Qed.

Lemma recentlyMentioned_In (this : ContextBuilder.t)
      (history : list Message) (p : jsstring) :
  In p (_findRecentlyMentionedFiles this history)
  <-> exists turn,
        In turn (sliceLast 4 history)
        /\ role turn = str "user"
        /\ In p (_findMentionedFiles this (content turn)).
Proof.
  unfold _findRecentlyMentionedFiles.
  rewrite recent_fold, addAll_In, in_flat_map. split.
  - intros [[] | (turn & Hturn & Hp)].
    apply filter_In in Hturn as [Hin Huser].
    apply jseqb_eq in Huser. now exists turn.
  - intros (turn & Hin & Huser & Hp). right. exists turn.
    split; [|assumption].
    apply filter_In. split; [assumption|].
    unfold Spec.isUserTurn. now apply jseqb_eq.
Qed.

(** A path is selected for a turn exactly when the message of the turn
    mentions it or a user turn among the last four turns of the history
    does. *)
Theorem selection_membership :
  forall (this : ContextBuilder.t) (userMessage : jsstring)
         (history : list Message) (p : jsstring),
    In p (filesToInclude this userMessage history)
    <-> In p (_findMentionedFiles this userMessage)
        \/ exists turn,
             In turn (sliceLast 4 history)
             /\ role turn = str "user"
             /\ In p (_findMentionedFiles this (content turn)).
Proof.
  intros this userMessage history p.
  unfold filesToInclude.
  now rewrite ofList_In, in_app_iff, recentlyMentioned_In.
Qed.

Lemma findFilesIn_incl (files : list ProjectFile) (lowerQuery : jsstring)
      (file : ProjectFile) :
  In file (FileManager.findFilesIn files lowerQuery) -> In file files.
Proof.
  induction files as [|f files IH]; cbn [FileManager.findFilesIn];
    [tauto|].
  destruct (includes (toLowerCase (name f)) lowerQuery);
    [|destruct (includes (toLowerCase (relativePath f)) lowerQuery)];
    cbn [In]; tauto.
Qed.

Lemma mentioned_indexed (this : ContextBuilder.t) (message p : jsstring) :
  In p (_findMentionedFiles this message) ->
  exists file,
    In file (projectFiles (fileManager this)) /\ relativePath file = p.
Proof.
  unfold _findMentionedFiles. rewrite ofList_In, in_app_iff.
  intros [H | H].
  - unfold patternPass in H.
    apply in_flat_map in H as (pattern & _ & H).
    apply in_flat_map in H as (m & _ & H).
    apply in_map_iff in H as (file & Hp & Hfile).
    exists file. split; [|assumption].
    now apply findFilesIn_incl in Hfile.
  - unfold keywordPass in H.
    apply in_flat_map in H as ([keyword patterns] & _ & H).
    unfold keywordEntry in H.
    destruct (includes (toLowerCase message) keyword); [|contradiction].
    apply in_flat_map in H as (pattern & _ & H).
    apply in_map_iff in H as (file & Hp & Hfile).
    exists file. split; [|assumption].
    apply firstn_incl in Hfile. now apply findFilesIn_incl in Hfile.
Qed.

(** The selection of a turn holds no path twice, and every path in it is the
    relative path of a file of the index: nothing is selected that the scan
    did not find. *)
Theorem selection_sound :
  forall (this : ContextBuilder.t) (userMessage : jsstring)
         (history : list Message),
    NoDup (filesToInclude this userMessage history)
    /\ forall p : jsstring,
        In p (filesToInclude this userMessage history) ->
        exists file,
          In file (projectFiles (fileManager this))
          /\ relativePath file = p.
Proof.
  intros this userMessage history. split.
  - unfold filesToInclude. rewrite ofList_firstAppearances.
    apply firstAppearances_NoDup.
  - intros p Hp. unfold filesToInclude in Hp.
    rewrite ofList_In, in_app_iff, recentlyMentioned_In in Hp.
    destruct Hp as [Hp | (turn & _ & _ & Hp)];
      now apply mentioned_indexed in Hp.
Qed.

(** With nothing in the index, every message and history give the empty
    string and an empty current context. *)
Theorem empty_index_empty_context :
  forall (E : Node.env) (this : ContextBuilder.t) (userMessage : jsstring)
         (history : list Message),
    projectFiles (fileManager this) = [] ->
    fst (buildContext E this userMessage history) = []
    /\ getCurrentContext (snd (buildContext E this userMessage history)) = [].
Proof.
  intros E this userMessage history Hempty.
  assert (Hsel : filesToInclude this userMessage history = []).
  { destruct (filesToInclude this userMessage history) as [|p l] eqn:Esel;
      [reflexivity|].
    assert (Hp : In p (filesToInclude this userMessage history))
      by (rewrite Esel; now left).
    unfold filesToInclude in Hp.
    rewrite ofList_In, in_app_iff, recentlyMentioned_In in Hp.
    destruct Hp as [Hp | (turn & _ & _ & Hp)];
      apply mentioned_indexed in Hp as (file & Hfile & _);
      rewrite Hempty in Hfile; contradiction. }
  split.
  - now apply buildContext_empty.
  - unfold getCurrentContext, buildContext. cbn [snd currentContext].
    exact Hsel.
Qed.

Lemma empty_index_empty_context_witness :
  fst (buildContext (Posix.env Scenario.emptyDisk)
         (constructor (FileManager.Make Scenario.root []))
         (str "explain main.js and the tests") []) = []
  /\ getCurrentContext
       (snd (buildContext (Posix.env Scenario.emptyDisk)
               (constructor (FileManager.Make Scenario.root []))
               (str "explain main.js and the tests") [])) = [].
Proof.
  apply (@empty_index_empty_context (Posix.env Scenario.emptyDisk)
           (constructor (FileManager.Make Scenario.root []))
           (str "explain main.js and the tests") []).
  reflexivity.
Defined.

(** ** The shape of the returned string *)

Lemma headerLine1_nonempty (rest : jsstring) : headerLine1 ++ rest <> [].
Proof. discriminate. Qed.

(** The returned string is empty exactly when nothing is selected; otherwise
    it starts with the two header lines and ends with the footer line. *)
Theorem context_empty_or_framed :
  forall (E : Node.env) (this : ContextBuilder.t) (userMessage : jsstring)
         (history : list Message),
    (fst (buildContext E this userMessage history) = []
     <-> filesToInclude this userMessage history = [])
    /\ (filesToInclude this userMessage history <> [] ->
        exists body,
          fst (buildContext E this userMessage history)
          = headerLine1 ++ headerLine2 ++ body ++ footerLine).
Proof.
  intros E this userMessage history. split.
  - split.
    + intros Hout.
      destruct (filesToInclude this userMessage history) as [|p l] eqn:Esel;
        [reflexivity|].
      rewrite buildContext_nonempty in Hout by congruence.
      now apply headerLine1_nonempty in Hout.
    + apply buildContext_empty.
  - intros Hsel. eexists. now apply buildContext_nonempty.
Qed.

Lemma context_empty_or_framed_witness :
  exists body,
    fst (buildContext (Posix.env (Scenario.fiveFiles 3)) Scenario.builder5
           (str "b.js") [])
    = headerLine1 ++ headerLine2 ++ body ++ footerLine.
Proof.
  apply (proj2 (@context_empty_or_framed (Posix.env (Scenario.fiveFiles 3))
                  Scenario.builder5 (str "b.js") [])).
  vm_compute. discriminate.
Defined.

Section Prefix.

Variable E : Node.env.
Variable this : ContextBuilder.t.

(** The loop packs the blocks of a prefix of the files and appends the
    notice exactly when it stopped before the end. *)
Lemma packLoop_prefix (files : list jsstring) :
  forall currentLength : nat,
    exists k,
      k <= length files
      /\ packLoop E this files [] currentLength
         = blocks E this (firstn k files)
           ++ (if k <? length files then limitNotice else [])
      /\ (k = 0 \/
          currentLength + blocksLength E this (firstn k files)
          <= maxContextLength this)
      /\ (k < length files ->
          maxContextLength this
          < currentLength + blocksLength E this (firstn (S k) files)).
Proof.
  induction files as [|p files IH]; intros cur.
  - exists 0. cbn. repeat split; auto; lia.
  - cbn [packLoop app].
    destruct (Nat.ltb_spec (maxContextLength this)
                (cur + length (_buildFileContext E this p))) as [Hover|Hfit].
    + exists 0. cbn [firstn length Nat.ltb Nat.leb].
      split; [lia|]. split; [reflexivity|]. split; [now left|].
      intros _. unfold blocksLength. cbn [map list_sum fold_right]. lia.
    + destruct (IH (cur + length (_buildFileContext E this p)))
        as (k & Hk & Hout & Hin & Hnext).
      exists (S k). cbn [length]. split; [lia|]. split; [|split].
      * rewrite packLoop_context, Hout.
        change (S k <? S (length files)) with (k <? length files).
        cbn [firstn].
        change (blocks E this (p :: firstn k files))
          with (_buildFileContext E this p ++ blocks E this (firstn k files)).
        now rewrite <- app_assoc.
      * right. cbn [firstn].
        change (blocksLength E this (p :: firstn k files))
          with (length (_buildFileContext E this p)
                + blocksLength E this (firstn k files)).
        destruct Hin as [-> | Hin]; [cbn [firstn]|];
          unfold blocksLength in *; cbn [map list_sum fold_right] in *; lia.
      * intros Hlt.
        change (firstn (S (S k)) (p :: files)) with (p :: firstn (S k) files).
        change (blocksLength E this (p :: firstn (S k) files))
          with (length (_buildFileContext E this p)
                + blocksLength E this (firstn (S k) files)).
        specialize (Hnext ltac:(lia)). lia.
Qed.

End Prefix.

(** For a selection that is not empty, the returned string is the header, the
    whole blocks of the first [k] selected files in order, the notice if and
    only if [k] is not the whole selection, and the footer; the [k] blocks
    fit the budget and the next block would not. *)
Theorem context_is_packed_prefix :
  forall (E : Node.env) (this : ContextBuilder.t) (userMessage : jsstring)
         (history : list Message),
    filesToInclude this userMessage history <> [] ->
    exists k,
      k <= length (filesToInclude this userMessage history)
      /\ fst (buildContext E this userMessage history)
         = headerLine1 ++ headerLine2
           ++ blocks E this
                (firstn k (filesToInclude this userMessage history))
           ++ (if k <? length (filesToInclude this userMessage history)
               then limitNotice else [])
           ++ footerLine
      /\ (k = 0 \/
          blocksLength E this
            (firstn k (filesToInclude this userMessage history))
          <= maxContextLength this)
      /\ (k < length (filesToInclude this userMessage history) ->
          maxContextLength this
          < blocksLength E this
              (firstn (S k) (filesToInclude this userMessage history))).
Proof.
  intros E this userMessage history Hsel.
  destruct (packLoop_prefix E this
              (filesToInclude this userMessage history) 0)
    as (k & Hk & Hout & Hin & Hnext).
  exists k. split; [assumption|]. split; [|split; assumption].
  rewrite buildContext_nonempty by assumption.
  now rewrite Hout, <- !app_assoc.
Qed.

Lemma context_is_packed_prefix_witness :
  exists k,
    k <= length (filesToInclude Scenario.builder5 Scenario.quotedE [])
    /\ fst (buildContext (Posix.env (Scenario.fiveFiles 2001))
              Scenario.builder5 Scenario.quotedE [])
       = headerLine1 ++ headerLine2
         ++ blocks (Posix.env (Scenario.fiveFiles 2001)) Scenario.builder5
              (firstn k (filesToInclude Scenario.builder5 Scenario.quotedE []))
         ++ (if k <? length (filesToInclude Scenario.builder5
                               Scenario.quotedE [])
             then limitNotice else [])
         ++ footerLine.
Proof.
  destruct (@context_is_packed_prefix (Posix.env (Scenario.fiveFiles 2001))
              Scenario.builder5 Scenario.quotedE [])
    as (k & Hk & Hout & _).
  - vm_compute. discriminate.
  - exists k. split; assumption.
Defined.

(** When the blocks of the whole selection fit the budget, every selected
    file has its block, in order, and there is no notice. *)
Theorem everything_fits_no_notice :
  forall (E : Node.env) (this : ContextBuilder.t) (userMessage : jsstring)
         (history : list Message),
    filesToInclude this userMessage history <> [] ->
    blocksLength E this (filesToInclude this userMessage history)
    <= maxContextLength this ->
    fst (buildContext E this userMessage history)
    = headerLine1 ++ headerLine2
      ++ blocks E this (filesToInclude this userMessage history)
      ++ footerLine.
Proof.
  intros E this userMessage history Hsel Hfit.
  rewrite buildContext_nonempty by assumption.
  rewrite <- (app_nil_r (filesToInclude this userMessage history)) at 1.
  rewrite packLoop_fits by (simpl; assumption).
  cbn [packLoop]. now rewrite app_nil_r.
Qed.

Lemma everything_fits_no_notice_witness :
  fst (buildContext (Posix.env (Scenario.fiveFiles 3)) Scenario.builder5
         (str "d.js and b.js") [])
  = headerLine1 ++ headerLine2
    ++ framed (str "d.js") (str "xxx") ++ framed (str "b.js") (str "xxx")
    ++ footerLine.
Proof.
  rewrite (@everything_fits_no_notice (Posix.env (Scenario.fiveFiles 3))
             Scenario.builder5 (str "d.js and b.js") []).
  - vm_compute. reflexivity.
  - vm_compute. discriminate.
  - computed_le.
Defined.

(** ** The size of a block *)

Lemma separator_length : length separator = 40.
Proof. reflexivity. Qed.

(** Whatever the file holds, its block is at least 37 and at most 2113 units
    longer than its path: the placeholder is the shortest block, a truncated
    file the longest. *)
Theorem block_length_bounds :
  forall (E : Node.env) (this : ContextBuilder.t) (filePath : jsstring),
    length filePath + 37 <= length (_buildFileContext E this filePath)
    /\ length (_buildFileContext E this filePath) <= length filePath + 2113.
Proof.
  intros E this filePath. unfold _buildFileContext.
  destruct (FileManager.readFile E (fileManager this) filePath)
    as [[|c content]|].
  - rewrite !length_app. cbn [length str list_ascii_of_string nl readError].
    lia.
  - destruct (Nat.ltb_spec 2000 (length (c :: content))) as [Hlong|Hshort];
      rewrite !length_app, separator_length.
    + unfold substring0. rewrite length_firstn.
      cbn [length str list_ascii_of_string nl truncatedMarker app] in *.
      lia.
    + cbn [length str list_ascii_of_string nl] in *. lia.
  - rewrite !length_app. cbn [length str list_ascii_of_string nl readError].
    lia.
Qed.

(** ** The current context *)

Lemma addAll_absorbs (l : list jsstring) :
  forall s : JsSet.t, (forall x, In x l -> In x s) -> JsSet.addAll s l = s.
Proof.
  induction l as [|x l IH]; intros s Hall; [reflexivity|].
  change (JsSet.addAll s (x :: l)) with (JsSet.addAll (JsSet.add s x) l).
  assert (Hx : JsSet.has s x = true) by (apply has_In, Hall; now left).
  unfold JsSet.add. rewrite Hx. apply IH. intros y Hy. apply Hall. now right.
Qed.

Lemma addAll_NoDup (s : JsSet.t) (l : list jsstring) :
  NoDup s -> NoDup (JsSet.addAll s l).
Proof.
  intros Hs. rewrite addAll_firstAppearances.
  apply NoDup_app; [assumption | |].
  - apply NoDup_filter, firstAppearances_NoDup.
  - intros a Ha Hf. apply filter_In in Hf as [_ Hf].
    apply has_In in Ha. now rewrite Ha in Hf.
Qed.

(** [includeFiles] adds the paths that are not there yet after the ones that
    are, in the order given: a path is in the context afterwards exactly when
    it was before or is among those given, and including the same paths again
    changes nothing. *)
Theorem includeFiles_adds_once :
  forall (this : ContextBuilder.t) (filePaths : list jsstring),
    (forall p : jsstring,
        In p (getCurrentContext (includeFiles this filePaths))
        <-> In p (getCurrentContext this) \/ In p filePaths)
    /\ (exists added,
           getCurrentContext (includeFiles this filePaths)
           = getCurrentContext this ++ added
           /\ NoDup added
           /\ forall p, In p added -> ~ In p (getCurrentContext this))
    /\ includeFiles (includeFiles this filePaths) filePaths
       = includeFiles this filePaths.
Proof.
  intros this filePaths. unfold getCurrentContext, includeFiles.
  cbn [currentContext fileManager maxContextLength]. split; [|split].
  - intros p. apply addAll_In.
  - eexists. split; [apply addAll_firstAppearances|]. split.
    + apply NoDup_filter, firstAppearances_NoDup.
    + intros p Hp Hin. apply filter_In in Hp as [_ Hp].
      apply has_In in Hin. now rewrite Hin in Hp.
  - f_equal. apply addAll_absorbs. intros x Hx.
    apply addAll_In. now right.
Qed.

(** No operation of the class puts a path twice in the current context: it
    is empty after the constructor and after [clearContext], free of
    duplicates after [buildContext], and [includeFiles] keeps it so. *)
Theorem current_context_no_duplicates :
  forall (E : Node.env) (manager : FileManager.t) (this : ContextBuilder.t)
         (userMessage : jsstring) (history : list Message)
         (filePaths : list jsstring),
    getCurrentContext (constructor manager) = []
    /\ getCurrentContext (clearContext this) = []
    /\ NoDup (getCurrentContext
                (snd (buildContext E this userMessage history)))
    /\ (NoDup (getCurrentContext this) ->
        NoDup (getCurrentContext (includeFiles this filePaths))).
Proof.
  intros E manager this userMessage history filePaths.
  split; [reflexivity|]. split; [reflexivity|]. split.
  - unfold getCurrentContext, buildContext. cbn [snd currentContext].
    unfold filesToInclude. rewrite ofList_firstAppearances.
    apply firstAppearances_NoDup.
  - unfold getCurrentContext, includeFiles. cbn [currentContext].
    apply addAll_NoDup.
Qed.

Lemma current_context_no_duplicates_witness :
  NoDup (getCurrentContext
           (includeFiles
              (snd (buildContext (Posix.env (Scenario.fiveFiles 3))
                      Scenario.builder5 (str "a.js b.js") []))
              [str "b.js"; str "z.js"; str "z.js"])).
Proof.
  apply (@current_context_no_duplicates (Posix.env (Scenario.fiveFiles 3))
           Scenario.manager5
           (snd (buildContext (Posix.env (Scenario.fiveFiles 3))
                   Scenario.builder5 (str "a.js b.js") []))
           (str "a.js b.js") [] [str "b.js"; str "z.js"; str "z.js"]).
  apply (@current_context_no_duplicates (Posix.env (Scenario.fiveFiles 3))
           Scenario.manager5 Scenario.builder5
           (str "a.js b.js") [] []).
Defined.

(** ** Searching the index *)

Lemma startsWith_split (m s : jsstring) :
  startsWith m s = true -> exists v, s = m ++ v.
Proof.
  revert s. induction m as [|c m IH]; intros s H.
  - now exists s.
  - destruct s as [|d s]; [discriminate|]. cbn [startsWith] in H.
    apply andb_prop in H as [Hc Hm]. apply Ascii.eqb_eq in Hc. subst d.
    destruct (IH s Hm) as [v ->]. now exists v.
Qed.

(** [includes] is the occurrence of the needle somewhere in the string. *)
Lemma includes_occurs (s m : jsstring) :
  includes s m = true <-> exists u v, s = u ++ m ++ v.
Proof.
  split.
  - induction s as [|c s IH]; cbn [includes]; intros H;
      apply orb_prop in H as [H | H].
    + apply startsWith_split in H as [v ->]. now exists [], v.
    + discriminate.
    + apply startsWith_split in H as [v ->]. now exists [], v.
    + destruct (IH H) as (u & v & ->). now exists (c :: u), v.
  - intros (u & v & ->). apply includes_infix.
Qed.

Lemma lowerUnit_idempotent (c : ascii) :
  lowerUnit (lowerUnit c) = lowerUnit c.
Proof. destruct c as [[] [] [] [] [] [] [] []]; reflexivity. Qed.

Lemma toLowerCase_idempotent (s : jsstring) :
  toLowerCase (toLowerCase s) = toLowerCase s.
Proof.
  unfold toLowerCase. rewrite map_map. apply map_ext.
  intros c. apply lowerUnit_idempotent.
Qed.

Lemma findFiles_In (this : FileManager.t) (query : jsstring)
      (file : ProjectFile) :
  In file (FileManager.findFiles this query)
  <-> In file (projectFiles this)
      /\ (includes (toLowerCase (name file)) (toLowerCase query) = true
          \/ includes (toLowerCase (relativePath file)) (toLowerCase query)
             = true).
Proof.
  unfold FileManager.findFiles. split.
  - intros H. split; [now apply findFilesIn_incl in H|].
    induction (projectFiles this) as [|f files IH];
      cbn [FileManager.findFilesIn] in H; [contradiction|].
    destruct (includes (toLowerCase (name f)) (toLowerCase query)) eqn:En.
    + destruct H as [-> | H]; [now left | now apply IH].
    + destruct (includes (toLowerCase (relativePath f)) (toLowerCase query))
        eqn:Er.
      * destruct H as [-> | H]; [now right | now apply IH].
      * now apply IH.
  - intros [Hin Hq]. now apply findFilesIn_In.
Qed.

(** [findFiles] returns the files of the index, and only those, in whose
    name or relative path the query occurs, letter case set aside. *)
Theorem findFiles_occurrence :
  forall (this : FileManager.t) (query : jsstring) (file : ProjectFile),
    In file (FileManager.findFiles this query)
    <-> In file (projectFiles this)
        /\ exists u v,
             toLowerCase (name file) = u ++ toLowerCase query ++ v
             \/ toLowerCase (relativePath file)
                = u ++ toLowerCase query ++ v.
Proof.
  intros this query file. rewrite findFiles_In, !includes_occurs.
  split; intros [Hin H]; (split; [assumption|]).
  - destruct H as [(u & v & H) | (u & v & H)]; exists u, v; tauto.
  - destruct H as (u & v & [H | H]); [left | right]; now exists u, v.
Qed.

(** A longer query finds less: every file found for a query is found for
    each query whose lower-cased form occurs in the lower-cased form of the
    first. *)
Theorem findFiles_narrowing :
  forall (this : FileManager.t) (query piece before after : jsstring)
         (file : ProjectFile),
    toLowerCase query = before ++ toLowerCase piece ++ after ->
    In file (FileManager.findFiles this query) ->
    In file (FileManager.findFiles this piece).
Proof.
  intros this query piece before after file Hq.
  rewrite !findFiles_In, !includes_occurs. rewrite Hq.
  intros [Hin [(u & v & H) | (u & v & H)]]; (split; [assumption|]);
    [left | right];
    exists (u ++ before), (after ++ v);
    rewrite H, <- !app_assoc; reflexivity.
Qed.

Lemma findFiles_narrowing_witness :
  In (Scenario.sourceFile Scenario.root Scenario.js (str "main.js"))
     (FileManager.findFiles Scenario.managerMain (str "AIN")).
Proof.
  apply (@findFiles_narrowing Scenario.managerMain (str "Main.JS")
           (str "AIN") (str "m") (str ".js")).
  - reflexivity.
  - vm_compute. tauto.
Defined.

(** Every file of the index is found by its own name and by its own relative
    path, in any letter case; the empty query finds the whole index; and the
    letter case of a query does not matter. *)
Theorem findFiles_own_name :
  forall (this : FileManager.t),
    (forall (file : ProjectFile) (query : jsstring),
        In file (projectFiles this) ->
        toLowerCase query = toLowerCase (name file)
        \/ toLowerCase query = toLowerCase (relativePath file) ->
        In file (FileManager.findFiles this query))
    /\ FileManager.findFiles this [] = projectFiles this
    /\ forall query query' : jsstring,
        toLowerCase query = toLowerCase query' ->
        FileManager.findFiles this query = FileManager.findFiles this query'.
Proof.
  intros this. split; [|split].
  - intros file query Hin Hq. apply findFiles_In. split; [assumption|].
    rewrite !includes_occurs.
    destruct Hq as [-> | ->]; [left | right]; exists [], [];
      now rewrite app_nil_r.
  - unfold FileManager.findFiles. change (toLowerCase []) with (@nil ascii).
    induction (projectFiles this) as [|f l IH]; [reflexivity|].
    cbn [FileManager.findFilesIn].
    assert (H : includes (toLowerCase (name f)) [] = true)
      by (destruct (toLowerCase (name f)); reflexivity).
    now rewrite H, IH.
  - intros query query' H. unfold FileManager.findFiles. now rewrite H.
Qed.

Lemma findFiles_own_name_witness :
  In (Scenario.sourceFile Scenario.root Scenario.js (str "index.js"))
     (FileManager.findFiles Scenario.managerMain (str "INDEX.JS")).
Proof.
  apply (proj1 (findFiles_own_name Scenario.managerMain)).
  - vm_compute. tauto.
  - left. reflexivity.
Defined.

(** ** Letter case in a message *)

Section Lowering.

Variable f : ascii -> ascii.

Lemma plus_map (c : ascii -> bool) (k : jsstring -> option nat) :
  (forall a, c (f a) = c a) ->
  (forall s, k (map f s) = k s) ->
  forall s, Regex.plus c k (map f s) = Regex.plus c k s.
Proof.
  intros Hc Hk. induction s as [|a s IH]; [reflexivity|].
  cbn [map Regex.plus]. now rewrite Hc, IH, Hk.
Qed.

Lemma exec_map (r : Regex.t) :
  stable f r -> forall s, Regex.exec r (map f s) = Regex.exec r s.
Proof.
  induction 1 as [|i r Hi Hr IH]; [reflexivity|].
  destruct i as [c|c]; cbn [Regex.exec].
  - intros [|a s]; [reflexivity|]. cbn [map].
    cbn [Regex.classOf] in Hi. now rewrite Hi, IH.
  - apply plus_map; assumption.
Qed.

Lemma scan_map (r : Regex.t) :
  stable f r ->
  forall (s : jsstring) (skip : nat),
    Regex.scan r skip (map f s) = map (map f) (Regex.scan r skip s).
Proof.
  intros Hr. induction s as [|a s IH]; intros skip; [reflexivity|].
  cbn [map Regex.scan]. destruct skip as [|k]; [|apply IH].
  change (f a :: map f s) with (map f (a :: s)).
  rewrite (exec_map Hr).
  destruct (Regex.exec r (a :: s)) as [n|]; [|apply IH].
  rewrite IH, firstn_map. reflexivity.
Qed.

End Lowering.

Lemma filePatterns_stable : Forall (stable lowerUnit) filePatterns.
Proof.
  unfold stable. repeat constructor; cbn [Regex.classOf]; intros a;
    destruct a as [[] [] [] [] [] [] [] []]; reflexivity.
Qed.

Lemma removeAll_lower (m : jsstring) :
  Regex.removeAll isQuote (toLowerCase m)
  = toLowerCase (Regex.removeAll isQuote m).
Proof.
  unfold Regex.removeAll, toLowerCase. rewrite filter_map_swap.
  f_equal. apply filter_ext. intros a.
  destruct a as [[] [] [] [] [] [] [] []]; reflexivity.
Qed.

Lemma patternPass_lower (this : ContextBuilder.t) (message : jsstring) :
  patternPass this (toLowerCase message) = patternPass this message.
Proof.
  unfold patternPass.
  pose proof filePatterns_stable as Hst.
  induction Hst as [|pattern patterns Hp _ IH]; [reflexivity|].
  cbn [flat_map]. rewrite IH. f_equal.
  unfold Regex.matchAll, toLowerCase at 1. rewrite (scan_map Hp).
  induction (Regex.scan pattern 0 message) as [|m ms IHm]; [reflexivity|].
  cbn [map flat_map]. rewrite IHm. f_equal.
  change (map lowerUnit m) with (toLowerCase m).
  rewrite removeAll_lower. unfold FileManager.findFiles.
  now rewrite toLowerCase_idempotent.
Qed.

(** For messages made of code units below 256, the domain of this
    development, on which [toLowerCase] works unit by unit and maps no unit
    into or out of a class of the patterns: two such messages that differ in
    case only select the same files in the same order, and [buildContext]
    returns the same string for both. *)
Theorem selection_ignores_case :
  forall (E : Node.env) (this : ContextBuilder.t)
         (message message' : jsstring) (history : list Message),
    toLowerCase message = toLowerCase message' ->
    _findMentionedFiles this message = _findMentionedFiles this message'
    /\ fst (buildContext E this message history)
       = fst (buildContext E this message' history).
Proof.
  intros E this message message' history Hcase.
  assert (Hlow : forall m,
             _findMentionedFiles this m
             = _findMentionedFiles this (toLowerCase m)).
  { intros m. unfold _findMentionedFiles.
    now rewrite patternPass_lower, toLowerCase_idempotent. }
  assert (Hm : _findMentionedFiles this message
               = _findMentionedFiles this message')
    by now rewrite (Hlow message), (Hlow message'), Hcase.
  split; [exact Hm|].
  unfold buildContext, filesToInclude. cbn [fst]. now rewrite Hm.
Qed.

Lemma selection_ignores_case_witness :
  _findMentionedFiles Scenario.builder5 (str "Open B.JS, then Main")
  = _findMentionedFiles Scenario.builder5 (str "open b.js, THEN main").
Proof.
  apply (@selection_ignores_case (Posix.env (Scenario.fiveFiles 3))
           Scenario.builder5 (str "Open B.JS, then Main")
           (str "open b.js, THEN main") []).
  reflexivity.
Defined.

(** ** The conversation history *)

Lemma sliceLast_short {A} (n : nat) (l : list A) :
  length l <= n -> sliceLast n l = l.
Proof.
  intros H. unfold sliceLast. now replace (length l - n) with 0 by lia.
Qed.

Lemma sliceLast_length {A} (n : nat) (l : list A) :
  length (sliceLast n l) = Nat.min n (length l).
Proof. unfold sliceLast. rewrite length_skipn. lia. Qed.

Lemma sliceLast_app_long {A} (n : nat) (pre t : list A) :
  n <= length t -> sliceLast n (pre ++ t) = sliceLast n t.
Proof.
  intros H. unfold sliceLast. rewrite length_app, skipn_app.
  rewrite skipn_all2 by lia. cbn [app]. f_equal. lia.
Qed.

Lemma sliceLast_dropped {A} (n : nat) (l : list A) :
  l = firstn (length l - n) l ++ sliceLast n l.
Proof. unfold sliceLast. symmetry. apply firstn_skipn. Qed.

Lemma sliceLast_again_app {A} (n : nat) (l t : list A) :
  sliceLast n (sliceLast n l ++ t) = sliceLast n (l ++ t).
Proof.
  destruct (Nat.le_gt_cases (length l) n) as [Hshort|Hlong].
  - now rewrite (@sliceLast_short _ _ _ Hshort).
  - rewrite (sliceLast_dropped n l) at 2. rewrite <- app_assoc.
    apply eq_sym, sliceLast_app_long.
    rewrite length_app, sliceLast_length. lia.
Qed.

Lemma sliceLast_of_sliceLast {A} (n m : nat) (l : list A) :
  n <= m -> sliceLast n (sliceLast m l) = sliceLast n l.
Proof.
  intros H. destruct (Nat.le_gt_cases (length l) m) as [Hshort|Hlong].
  - now rewrite (@sliceLast_short _ _ _ Hshort).
  - rewrite (sliceLast_dropped m l) at 2.
    apply eq_sym, sliceLast_app_long. rewrite sliceLast_length. lia.
Qed.

Lemma addToHistory_sliceLast (history : list Message)
      (role content : jsstring) :
  ChatSession.addToHistory history role content
  = sliceLast 20 (history ++ [Msg role content]).
Proof.
  unfold ChatSession.addToHistory.
  destruct (Nat.ltb_spec 20 (length (history ++ [Msg role content])));
    [reflexivity|].
  now rewrite sliceLast_short by assumption.
Qed.

(** After [addToHistory] the history holds at most 20 messages and ends with
    the message added; before it stand the messages of the old history, the
    oldest dropped only when there were 20 or more. *)
Theorem addToHistory_keeps_last_twenty :
  forall (history : list Message) (role content : jsstring),
    length (ChatSession.addToHistory history role content)
    = Nat.min 20 (length history + 1)
    /\ exists dropped kept,
         history = dropped ++ kept
         /\ ChatSession.addToHistory history role content
            = kept ++ [Msg role content]
         /\ length dropped = length history - 19.
Proof.
  intros history role content. rewrite addToHistory_sliceLast. split.
  - rewrite sliceLast_length, length_app. cbn [length]. lia.
  - exists (firstn (length history - 19) history),
      (skipn (length history - 19) history).
    split; [symmetry; apply firstn_skipn|]. split.
    + unfold sliceLast. rewrite length_app, skipn_app. cbn [length].
      replace (length history + 1 - 20) with (length history - 19) by lia.
      replace (length history - 19 - length history) with 0 by lia.
      reflexivity.
    + rewrite length_firstn. lia.
Qed.

Lemma history_fold (msgs : list Message) :
  forall l : list Message,
    fold_left
      (fun history m => ChatSession.addToHistory history (role m) (content m))
      msgs (sliceLast 20 l)
    = sliceLast 20 (l ++ msgs).
Proof.
  induction msgs as [|m msgs IH]; intros l.
  - now rewrite app_nil_r.
  - cbn [fold_left]. rewrite addToHistory_sliceLast.
    destruct m as [r c]. cbn [role content].
    rewrite sliceLast_again_app, IH, <- app_assoc. reflexivity.
Qed.

(** Whatever was said in a session, the history is the last 20 messages of
    it, in order. *)
Theorem history_is_last_twenty :
  forall msgs : list Message,
    fold_left
      (fun history m => ChatSession.addToHistory history (role m) (content m))
      msgs []
    = sliceLast 20 msgs.
Proof. intros msgs. apply (history_fold msgs []). Qed.

(** A file named in a user message is selected again for the next messages
    while at most three turns were added after that message: the reply and
    the next question, for one. *)
Theorem mention_carries_over :
  forall (this : ContextBuilder.t) (history later : list Message)
         (mention next p : jsstring),
    In p (_findMentionedFiles this mention) ->
    length later <= 3 ->
    In p (filesToInclude this next
            (fold_left
               (fun h m => ChatSession.addToHistory h (role m) (content m))
               later
               (ChatSession.addToHistory history (str "user") mention))).
Proof.
  intros this history later mention next p Hp Hlater.
  unfold filesToInclude. rewrite ofList_In, in_app_iff. right.
  apply recentlyMentioned_In. exists (Msg (str "user") mention).
  split; [|split; [reflexivity | exact Hp]].
  rewrite addToHistory_sliceLast, history_fold.
  rewrite sliceLast_of_sliceLast by lia.
  rewrite <- app_assoc. cbn [app].
  unfold sliceLast. rewrite skipn_app. apply in_or_app. right.
  rewrite length_app. cbn [length].
  replace (length history + S (length later) - 4 - length history) with 0
    by lia.
  now left.
Qed.

Lemma mention_carries_over_witness :
  In (str "c.js")
     (filesToInclude Scenario.builder5 (str "and what does it return?")
        (fold_left
           (fun h m => ChatSession.addToHistory h (role m) (content m))
           [Msg (str "assistant") (str "It parses the input.")]
           (ChatSession.addToHistory [] (str "user") (str "explain c.js")))).
Proof.
  apply (@mention_carries_over Scenario.builder5 []
           [Msg (str "assistant") (str "It parses the input.")]
           (str "explain c.js") (str "and what does it return?")
           (str "c.js")).
  - vm_compute. tauto.
  - cbn [length]. lia.
Defined.

(** ** A line typed in the chat *)

Lemma trimStart_blank (ws s : jsstring) :
  forallb ChatSession.isWhiteSpace ws = true ->
  ChatSession.trimStart (ws ++ s) = ChatSession.trimStart s.
Proof.
  induction ws as [|c ws IH]; cbn [forallb app ChatSession.trimStart];
    [reflexivity|].
  intros H. apply andb_prop in H as [Hc Hws]. now rewrite Hc, IH.
Qed.

Lemma trimStart_nil_blank (s : jsstring) :
  ChatSession.trimStart s = [] -> forallb ChatSession.isWhiteSpace s = true.
Proof.
  induction s as [|c s IH]; cbn [forallb ChatSession.trimStart];
    [reflexivity|].
  destruct (ChatSession.isWhiteSpace c); [exact IH | discriminate].
Qed.

Lemma trimStart_app (s t : jsstring) :
  ChatSession.trimStart s <> [] ->
  ChatSession.trimStart (s ++ t) = ChatSession.trimStart s ++ t.
Proof.
  induction s as [|c s IH]; cbn [app ChatSession.trimStart];
    [congruence|].
  destruct (ChatSession.isWhiteSpace c); [exact IH | reflexivity].
Qed.

Lemma forallb_rev {A} (f : A -> bool) (l : list A) :
  forallb f (rev l) = forallb f l.
Proof.
  induction l as [|a l IH]; [reflexivity|].
  cbn [rev forallb]. rewrite forallb_app, IH. cbn [forallb].
  rewrite andb_true_r. apply andb_comm.
Qed.

Lemma trimEnd_blank (s ws : jsstring) :
  forallb ChatSession.isWhiteSpace ws = true ->
  ChatSession.trimEnd (s ++ ws) = ChatSession.trimEnd s.
Proof.
  intros H. unfold ChatSession.trimEnd.
  rewrite rev_app_distr, trimStart_blank; [reflexivity|].
  now rewrite forallb_rev.
Qed.

Lemma trim_blank (ws1 s ws2 : jsstring) :
  forallb ChatSession.isWhiteSpace ws1 = true ->
  forallb ChatSession.isWhiteSpace ws2 = true ->
  ChatSession.trim (ws1 ++ s ++ ws2) = ChatSession.trim s.
Proof.
  intros H1 H2. unfold ChatSession.trim.
  rewrite (@trimStart_blank ws1 (s ++ ws2) H1).
  destruct (ChatSession.trimStart s) as [|c s'] eqn:Es.
  - apply trimStart_nil_blank in Es.
    rewrite (@trimStart_blank s ws2 Es).
    pose proof (@trimStart_blank ws2 [] H2) as Hws.
    rewrite app_nil_r in Hws. now rewrite Hws.
  - rewrite trimStart_app by congruence. rewrite Es.
    now apply trimEnd_blank.
Qed.

(** Blanks around a line do not change what the handler does with it; a
    line of blanks only gets a new prompt and is never sent; and what is sent
    on is the trimmed line, which is then not empty and not a command. *)
Theorem line_dispatch :
  (forall ws1 s ws2 : jsstring,
      forallb ChatSession.isWhiteSpace ws1 = true ->
      forallb ChatSession.isWhiteSpace ws2 = true ->
      ChatSession.onLine (ws1 ++ s ++ ws2) = ChatSession.onLine s)
  /\ (forall input : jsstring,
         forallb ChatSession.isWhiteSpace input = true ->
         ChatSession.onLine input = ChatSession.Prompt)
  /\ (forall input userMessage : jsstring,
         ChatSession.onLine input
         = ChatSession.ProcessUserMessage userMessage ->
         userMessage = ChatSession.trim input
         /\ userMessage <> []
         /\ ChatSession.isExitCommand userMessage = false
         /\ ChatSession.isFilesCommand userMessage = false).
Proof.
  split; [|split].
  - intros ws1 s ws2 H1 H2. unfold ChatSession.onLine.
    now rewrite trim_blank.
  - intros input H. unfold ChatSession.onLine.
    pose proof (@trim_blank input [] [] H eq_refl) as Ht.
    rewrite app_nil_r in Ht. now rewrite Ht.
  - intros input userMessage. unfold ChatSession.onLine.
    destruct (ChatSession.isExitCommand (ChatSession.trim input)) eqn:Ee;
      [discriminate|].
    destruct (ChatSession.isFilesCommand (ChatSession.trim input)) eqn:Ef;
      [discriminate|].
    destruct (ChatSession.trim input) as [|c u] eqn:Et; [discriminate|].
    intros [= <-]. repeat split; try assumption. discriminate.
Qed.

Lemma line_dispatch_witness :
  ChatSession.onLine (str "  " ++ str "Show Files" ++ str " ")
  = ChatSession.ShowProjectFiles
  /\ ChatSession.onLine (str "   ") = ChatSession.Prompt.
Proof.
  destruct line_dispatch as (Hpad & Hblank & _). split.
  - rewrite (Hpad (str "  ") (str "Show Files") (str " "));
      reflexivity.
  - apply Hblank. reflexivity.
Defined.

(** ** The project scan *)

Lemma shouldInclude_true (D : NodeDir.env) (filename fullPath : jsstring) :
  Scan._shouldIncludeFile D filename fullPath = Node.Return true
  <-> ~ In filename Scan.ignoredFiles
      /\ In (NodeDir.extname D filename) Scan.supportedExtensions
      /\ exists stat,
           NodeDir.statSync D fullPath = Node.Return stat
           /\ NodeDir.size stat <= Scan.maxFileSize.
Proof.
  unfold Scan._shouldIncludeFile.
  destruct (JsSet.has Scan.ignoredFiles filename) eqn:Ei.
  { apply has_In in Ei. split; [discriminate | tauto]. }
  assert (Hi : ~ In filename Scan.ignoredFiles).
  { intros H. apply has_In in H. congruence. }
  destruct (JsSet.has Scan.supportedExtensions (NodeDir.extname D filename))
    eqn:Es; cbn [negb].
  2:{ split; [discriminate|]. intros (_ & H & _).
      apply has_In in H. congruence. }
  apply has_In in Es.
  destruct (NodeDir.statSync D fullPath) as [stat|code].
  - destruct (Scan.maxFileSize <? NodeDir.size stat) eqn:El.
    + apply Nat.ltb_lt in El. split; [discriminate|].
      intros (_ & _ & st & [= <-] & Hle). lia.
    + apply Nat.ltb_ge in El. split; [|reflexivity].
      intros _. split; [assumption|]. split; [assumption|].
      exists stat. split; [reflexivity | assumption].
  - split; [discriminate|]. intros (_ & _ & st & Hst & _). discriminate.
Qed.

Lemma shouldInclude_returns (D : NodeDir.env) (filename fullPath : jsstring)
      (stat : NodeDir.Stats) :
  NodeDir.statSync D fullPath = Node.Return stat ->
  exists b, Scan._shouldIncludeFile D filename fullPath = Node.Return b.
Proof.
  intros H. unfold Scan._shouldIncludeFile. rewrite H.
  destruct (JsSet.has Scan.ignoredFiles filename); [now eexists|].
  destruct (negb _); [now eexists|].
  destruct (Scan.maxFileSize <? NodeDir.size stat); now eexists.
Qed.

Section ScanLoop.

Variable D : NodeDir.env.
Variable root : jsstring.

Lemma scanItems_ext (recur recur' : jsstring -> list ProjectFile
                                    -> list ProjectFile)
      (dir : jsstring) :
  (forall p fs, recur p fs = recur' p fs) ->
  forall items files,
    Scan.scanItems D root recur dir items files
    = Scan.scanItems D root recur' dir items files.
Proof.
  intros Hext. induction items as [|item rest IH]; intros files;
    [reflexivity|].
  cbn [Scan.scanItems].
  destruct (NodeDir.statSync D (NodeDir.join D dir item)) as [stat|];
    [|reflexivity].
  destruct (NodeDir.isDirectory stat).
  - destruct (negb _); [now rewrite Hext, IH | apply IH].
  - destruct (NodeDir.isFile stat); [|apply IH].
    destruct (Scan._shouldIncludeFile D item _) as [[|]|];
      [apply IH | apply IH | reflexivity].
Qed.

(** The loop keeps a property of the files pushed so far when the recursive
    call keeps it and every file it pushes itself has it. *)
Lemma scanItems_keeps (Q : ProjectFile -> Prop)
      (recur : jsstring -> list ProjectFile -> list ProjectFile)
      (dir : jsstring) (listing : list jsstring) :
  (forall item stat fs,
      In item listing ->
      NodeDir.statSync D (NodeDir.join D dir item) = Node.Return stat ->
      NodeDir.isDirectory stat = true ->
      ~ In item Scan.ignoredDirs ->
      Forall Q fs -> Forall Q (recur (NodeDir.join D dir item) fs)) ->
  (forall item stat,
      In item listing ->
      NodeDir.statSync D (NodeDir.join D dir item) = Node.Return stat ->
      NodeDir.isDirectory stat = false ->
      NodeDir.isFile stat = true ->
      Scan._shouldIncludeFile D item (NodeDir.join D dir item)
      = Node.Return true ->
      Q {| name := item;
           path := NodeDir.join D dir item;
           relativePath := NodeDir.relative D root (NodeDir.join D dir item);
           extension := NodeDir.extname D item;
           size := NodeDir.size stat |}) ->
  forall items,
    incl items listing ->
    forall files,
      Forall Q files -> Forall Q (Scan.scanItems D root recur dir items files).
Proof.
  intros Hrec Hpush. induction items as [|item rest IH];
    intros Hincl files Hfiles; [assumption|].
  assert (Hitem : In item listing) by (apply Hincl; now left).
  assert (Hrest : incl rest listing)
    by (intros x Hx; apply Hincl; now right).
  cbn [Scan.scanItems].
  destruct (NodeDir.statSync D (NodeDir.join D dir item)) as [stat|] eqn:Est;
    [|assumption].
  destruct (NodeDir.isDirectory stat) eqn:Edir.
  - destruct (JsSet.has Scan.ignoredDirs item) eqn:Eig; cbn [negb].
    + now apply IH.
    + apply IH; [assumption|].
      apply (Hrec item stat); try assumption.
      intros H. apply has_In in H. congruence.
  - destruct (NodeDir.isFile stat) eqn:Efile; [|now apply IH].
    destruct (Scan._shouldIncludeFile D item _) as [[|]|] eqn:Einc;
      [|now apply IH | assumption].
    apply IH; [assumption|].
    apply Forall_app. split; [assumption|].
    constructor; [|constructor]. now apply (Hpush item stat).
Qed.

(** The loop only appends when the recursive call only appends. *)
Lemma scanItems_appends
      (recur : jsstring -> list ProjectFile -> list ProjectFile)
      (dir : jsstring) :
  (forall p fs, exists added, recur p fs = fs ++ added) ->
  forall items files,
    exists added, Scan.scanItems D root recur dir items files = files ++ added.
Proof.
  intros Hrec. induction items as [|item rest IH]; intros files.
  - exists []. now rewrite app_nil_r.
  - cbn [Scan.scanItems].
    destruct (NodeDir.statSync D (NodeDir.join D dir item)) as [stat|];
      [|exists []; now rewrite app_nil_r].
    destruct (NodeDir.isDirectory stat).
    + destruct (negb _); [|apply IH].
      destruct (Hrec (NodeDir.join D dir item) files) as [a1 ->].
      destruct (IH (files ++ a1)) as [a2 ->].
      exists (a1 ++ a2). now rewrite app_assoc.
    + destruct (NodeDir.isFile stat); [|apply IH].
      destruct (Scan._shouldIncludeFile D item _) as [[|]|];
        [|apply IH | exists []; now rewrite app_nil_r].
      match goal with
      | |- context [Scan.scanItems _ _ _ _ _ (files ++ ?new)] =>
          destruct (IH (files ++ new)) as [a2 ->];
          exists (new ++ a2); now rewrite app_assoc
      end.
Qed.

(** Entries that [statSync] answers for do not end the loop. *)
Lemma scanItems_app
      (recur : jsstring -> list ProjectFile -> list ProjectFile)
      (dir : jsstring) (before items : list jsstring) :
  (forall x, In x before ->
             exists stat,
               NodeDir.statSync D (NodeDir.join D dir x) = Node.Return stat) ->
  forall files,
    Scan.scanItems D root recur dir (before ++ items) files
    = Scan.scanItems D root recur dir items
        (Scan.scanItems D root recur dir before files).
Proof.
  induction before as [|x before IH]; intros Hstat files; [reflexivity|].
  assert (Hbefore : forall y, In y before ->
                      exists stat,
                        NodeDir.statSync D (NodeDir.join D dir y)
                        = Node.Return stat)
    by (intros y Hy; apply Hstat; now right).
  destruct (Hstat x (or_introl eq_refl)) as [stat Hx].
  cbn [app Scan.scanItems]. rewrite Hx.
  destruct (NodeDir.isDirectory stat).
  - destruct (negb _); now apply IH.
  - destruct (NodeDir.isFile stat); [|now apply IH].
    destruct (shouldInclude_returns D x _ Hx) as [[|] ->]; now apply IH.
Qed.

(** An entry [statSync] throws on ends the loop: what is listed after it has
    no part in the result. *)
Lemma scanItems_stops
      (recur : jsstring -> list ProjectFile -> list ProjectFile)
      (dir item code : jsstring) (before rest : list jsstring) :
  NodeDir.statSync D (NodeDir.join D dir item) = Node.Throw code ->
  forall files,
    Scan.scanItems D root recur dir (before ++ item :: rest) files
    = Scan.scanItems D root recur dir before files.
Proof.
  intros Hthrow. induction before as [|x before IH]; intros files.
  - cbn [app Scan.scanItems]. now rewrite Hthrow.
  - cbn [app Scan.scanItems].
    destruct (NodeDir.statSync D (NodeDir.join D dir x)) as [stat|];
      [|reflexivity].
    destruct (NodeDir.isDirectory stat).
    + destruct (negb _); apply IH.
    + destruct (NodeDir.isFile stat); [|apply IH].
      destruct (Scan._shouldIncludeFile D x _) as [[|]|];
        [apply IH | apply IH | reflexivity].
Qed.

End ScanLoop.

(** The recursion of the source: the bound on the levels is never what ends
    it. *)
Lemma _scanDirectory_unfold (D : NodeDir.env) (this : FileManager.t)
      (dirPath : jsstring) (depth : nat) (files : list ProjectFile) :
  Scan._scanDirectory D this dirPath depth files
  = if 5 <? depth then files
    else
      match NodeDir.readdirSync D dirPath with
      | Node.Throw _ => files
      | Node.Return items =>
          Scan.scanItems D (projectPath this)
            (fun fullPath files' =>
               Scan._scanDirectory D this fullPath (depth + 1) files')
            dirPath items files
      end.
Proof.
  unfold Scan._scanDirectory.
  destruct (Nat.ltb_spec 5 depth) as [Hdeep|Hok].
  - destruct (6 - depth); cbn [Scan.scanLevels];
      destruct (Nat.ltb_spec 5 depth); try lia; reflexivity.
  - replace (6 - depth) with (S (5 - depth)) by lia.
    cbn [Scan.scanLevels].
    destruct (Nat.ltb_spec 5 depth); [lia|].
    destruct (NodeDir.readdirSync D dirPath) as [items|]; [|reflexivity].
    apply scanItems_ext. intros p fs.
    now replace (6 - (depth + 1)) with (5 - depth) by lia.
Qed.

Lemma scanLevels_appends (D : NodeDir.env) (root : jsstring) (levels : nat) :
  forall (dir : jsstring) (depth : nat) (files : list ProjectFile),
    exists added, Scan.scanLevels D root levels dir depth files = files ++ added.
Proof.
  induction levels as [|levels IH]; intros dir depth files;
    cbn [Scan.scanLevels];
    destruct (5 <? depth); try (exists []; now rewrite app_nil_r).
  destruct (NodeDir.readdirSync D dir) as [items|];
    [|exists []; now rewrite app_nil_r].
  apply scanItems_appends. intros p fs. apply IH.
Qed.

Lemma scanLevels_keeps (D : NodeDir.env) (root : jsstring) (levels : nat) :
  forall (dir : jsstring) (depth : nat) (files : list ProjectFile),
    scannedDir D root depth dir ->
    Forall (fun f => passedFilter D root f /\ foundAt D root f) files ->
    Forall (fun f => passedFilter D root f /\ foundAt D root f)
           (Scan.scanLevels D root levels dir depth files).
Proof.
  induction levels as [|levels IH]; intros dir depth files Hdir Hfiles;
    cbn [Scan.scanLevels];
    destruct (Nat.ltb_spec 5 depth) as [|Hdepth]; try assumption.
  destruct (NodeDir.readdirSync D dir) as [items|] eqn:Els; [|assumption].
  apply scanItems_keeps with (listing := items);
    [| |apply incl_refl|assumption].
  - intros item stat fs Hitem Hstat Hisdir Hnot Hfs.
    apply IH; [|assumption].
    rewrite Nat.add_1_r. now apply scanned_sub with (items := items) (stat := stat).
  - intros item stat Hitem Hstat Hnodir Hisfile Hinc.
    apply shouldInclude_true in Hinc as (Hign & Hext & st & Hst & Hsize).
    rewrite Hstat in Hst. injection Hst as <-.
    split.
    + unfold passedFilter. cbn [name path relativePath extension size].
      repeat split; try assumption. exists stat. repeat split; assumption.
    + exists dir, depth, items. cbn [name path]. repeat split; assumption.
Qed.

(** Every file the scan returns passed the filter: its name is not in
    [ignoredFiles], its extension is the one [path.extname] gives for the
    name and is in [supportedExtensions], [statSync] calls it a file of the
    recorded size, at most 1 MiB, and its relative path is taken from the
    project root. *)
Theorem scanned_files_passed_filter :
  forall (D : NodeDir.env) (this : FileManager.t) (file : ProjectFile),
    In file (projectFiles (Scan.scanProject D this)) ->
    passedFilter D (projectPath this) file.
Proof.
  intros D this file Hin.
  pose proof (@scanLevels_keeps D (projectPath this) 6 (projectPath this) 0 []
                (scanned_root D (projectPath this)) (Forall_nil _)) as H.
  rewrite Forall_forall in H. now apply H.
Qed.

Lemma scanned_files_passed_filter_witness :
  passedFilter (Tree.env Tree.project) (str "/proj")
    {| name := str "app.js";
       path := str "/proj/src/app.js";
       relativePath := str "src/app.js";
       extension := str ".js";
       size := 900 |}.
Proof.
  apply (@scanned_files_passed_filter (Tree.env Tree.project) Tree.manager).
  vm_compute. tauto.
Defined.

(** Every file the scan returns was listed in a directory at most five
    levels below the project root, reached from the root through directories
    that are not named in [ignoredDirs]. *)
Theorem scanned_files_location :
  forall (D : NodeDir.env) (this : FileManager.t) (file : ProjectFile),
    In file (projectFiles (Scan.scanProject D this)) ->
    foundAt D (projectPath this) file.
Proof.
  intros D this file Hin.
  pose proof (@scanLevels_keeps D (projectPath this) 6 (projectPath this) 0 []
                (scanned_root D (projectPath this)) (Forall_nil _)) as H.
  rewrite Forall_forall in H. now apply H.
Qed.

Lemma scanned_files_location_witness :
  foundAt (Tree.env Tree.project) (str "/proj")
    {| name := str "util.ts";
       path := str "/proj/src/util.ts";
       relativePath := str "src/util.ts";
       extension := str ".ts";
       size := 50 |}.
Proof.
  apply (@scanned_files_location (Tree.env Tree.project) Tree.manager).
  vm_compute. tauto.
Defined.

(** The scan never loses a file it has pushed and never throws: below level
    5 and in a directory that cannot be listed it adds nothing, and an entry
    [statSync] throws on ends the loop over its directory, so that the
    entries listed after it are not looked at. *)
Theorem scan_survives_errors :
  forall (D : NodeDir.env) (this : FileManager.t) (dir : jsstring)
         (depth : nat) (files : list ProjectFile),
    (exists added,
        Scan._scanDirectory D this dir depth files = files ++ added)
    /\ (5 < depth -> Scan._scanDirectory D this dir depth files = files)
    /\ (forall code,
           NodeDir.readdirSync D dir = Node.Throw code ->
           Scan._scanDirectory D this dir depth files = files)
    /\ (forall before item rest code,
           depth <= 5 ->
           NodeDir.readdirSync D dir = Node.Return (before ++ item :: rest) ->
           NodeDir.statSync D (NodeDir.join D dir item) = Node.Throw code ->
           Scan._scanDirectory D this dir depth files
           = Scan.scanItems D (projectPath this)
               (fun fullPath files' =>
                  Scan._scanDirectory D this fullPath (depth + 1) files')
               dir before files).
Proof.
  intros D this dir depth files. split; [|split; [|split]].
  - apply scanLevels_appends.
  - intros Hdeep. rewrite _scanDirectory_unfold.
    now destruct (Nat.ltb_spec 5 depth); [|lia].
  - intros code Hthrow. rewrite _scanDirectory_unfold, Hthrow.
    now destruct (5 <? depth).
  - intros before item rest code Hdepth Hls Hthrow.
    rewrite _scanDirectory_unfold, Hls.
    destruct (Nat.ltb_spec 5 depth); [lia|].
    now apply scanItems_stops with (code := code).
Qed.

Lemma scan_survives_errors_witness :
  projectFiles (Scan.scanProject (Tree.env Tree.project) Tree.manager)
  = Scan.scanItems (Tree.env Tree.project) (str "/proj")
      (fun fullPath files' =>
         Scan._scanDirectory (Tree.env Tree.project) Tree.manager
           fullPath 1 files')
      (str "/proj")
      [str "src"; str "node_modules"; str "README.md"; str "dump.sql";
       str "logo.png"; str ".env"]
      [].
Proof.
  destruct (@scan_survives_errors (Tree.env Tree.project) Tree.manager
              (str "/proj") 0 []) as (_ & _ & _ & H).
  apply (H [str "src"; str "node_modules"; str "README.md"; str "dump.sql";
            str "logo.png"; str ".env"]
           (str "gone") [str "late.js"] (str "ENOENT")).
  - lia.
  - reflexivity.
  - reflexivity.
Defined.

(** A file listed in the project root is found when it passes the filter and
    [statSync] answers for the entries listed before it. *)
Theorem scan_finds_root_file :
  forall (D : NodeDir.env) (this : FileManager.t)
         (before rest : list jsstring) (item : jsstring)
         (stat : NodeDir.Stats),
    NodeDir.readdirSync D (projectPath this)
    = Node.Return (before ++ item :: rest) ->
    (forall x, In x before ->
               exists st,
                 NodeDir.statSync D (NodeDir.join D (projectPath this) x)
                 = Node.Return st) ->
    NodeDir.statSync D (NodeDir.join D (projectPath this) item)
    = Node.Return stat ->
    NodeDir.isDirectory stat = false ->
    NodeDir.isFile stat = true ->
    ~ In item Scan.ignoredFiles ->
    In (NodeDir.extname D item) Scan.supportedExtensions ->
    NodeDir.size stat <= Scan.maxFileSize ->
    In {| name := item;
          path := NodeDir.join D (projectPath this) item;
          relativePath :=
            NodeDir.relative D (projectPath this)
              (NodeDir.join D (projectPath this) item);
          extension := NodeDir.extname D item;
          size := NodeDir.size stat |}
       (projectFiles (Scan.scanProject D this)).
Proof.
  intros D this before rest item stat Hls Hbefore Hstat Hnodir Hfile
         Hign Hext Hsize.
  unfold Scan.scanProject. cbn [projectFiles projectPath].
  rewrite _scanDirectory_unfold, Hls. cbn [Nat.ltb Nat.leb].
  rewrite scanItems_app by assumption.
  cbn [Scan.scanItems]. rewrite Hstat, Hnodir, Hfile.
  assert (Hinc : Scan._shouldIncludeFile D item
                   (NodeDir.join D (projectPath this) item)
                 = Node.Return true).
  { apply shouldInclude_true. split; [assumption|]. split; [assumption|].
    exists stat. split; assumption. }
  rewrite Hinc.
  match goal with
  | |- In ?f (Scan.scanItems _ _ ?recur _ _ (?fs ++ _)) =>
      destruct (@scanItems_appends D (projectPath this) recur
                  (projectPath this)
                  (fun p l => scanLevels_appends D (projectPath this)
                                (6 - (0 + 1)) p (0 + 1) l)
                  rest (fs ++ [f])) as [added ->]
  end.
  apply in_or_app. left. apply in_or_app. right. now left.
Qed.

Lemma scan_finds_root_file_witness :
  In {| name := str "README.md";
        path := str "/proj/README.md";
        relativePath := str "README.md";
        extension := str ".md";
        size := 120 |}
     (projectFiles (Scan.scanProject (Tree.env Tree.project) Tree.manager)).
Proof.
  apply (@scan_finds_root_file (Tree.env Tree.project) Tree.manager
           [str "src"; str "node_modules"]
           [str "dump.sql"; str "logo.png"; str ".env"; str "gone";
            str "late.js"]
           (str "README.md") (Tree.file 120)).
  - reflexivity.
  - intros x [<- | [<- | []]]; eexists; reflexivity.
  - reflexivity.
  - reflexivity.
  - reflexivity.
  - intros H. apply has_In in H. revert H. vm_compute. discriminate.
  - apply has_In. vm_compute. reflexivity.
  - computed_le.
Defined.

(** ** The names of scanned files *)

Lemma lastDotSuffix_suffix (s ext : jsstring) :
  Tree.lastDotSuffix s = Some ext -> exists before, s = before ++ ext.
Proof.
  revert ext. induction s as [|c s IH]; intros ext H; [discriminate|].
  cbn [Tree.lastDotSuffix] in H.
  destruct (Tree.lastDotSuffix s) as [e|].
  - injection H as <-. destruct (IH e eq_refl) as [before ->].
    now exists (c :: before).
  - destruct (Ascii.eqb c dot); [|discriminate].
    injection H as <-. now exists [].
Qed.

Lemma hasExtension_suffix (c : ascii) (before ext : jsstring) :
  isExtension ext = true -> hasExtension (c :: before ++ ext) = true.
Proof.
  intros H. revert c. induction before as [|b before IH]; intros c.
  - cbn [app hasExtension]. now rewrite H.
  - change (hasExtension (c :: (b :: before) ++ ext))
      with (isExtension ((b :: before) ++ ext)
            || hasExtension (b :: before ++ ext)).
    rewrite IH. apply orb_true_r.
Qed.

Lemma supported_isExtension (ext : jsstring) :
  In ext Scan.supportedExtensions -> isExtension ext = true.
Proof.
  assert (H : forallb isExtension Scan.supportedExtensions = true)
    by (vm_compute; reflexivity).
  rewrite forallb_forall in H. apply H.
Qed.

(** A name [path.extname] gives a supported extension for ends in a dot and
    word characters after at least one other unit. *)
Lemma supported_name_hasExtension (n : jsstring) :
  In (Tree.extname n) Scan.supportedExtensions -> hasExtension n = true.
Proof.
  intros H. apply supported_isExtension in H.
  destruct n as [|c rest]; [discriminate|].
  unfold Tree.extname in H.
  destruct (jseqb (c :: rest) (str "..")); [discriminate|].
  destruct (Tree.lastDotSuffix rest) as [ext|] eqn:E; [|discriminate].
  destruct (@lastDotSuffix_suffix rest ext E) as [before ->].
  now apply hasExtension_suffix.
Qed.

(** Every name the scan records meets the condition on the extension in
    [quoted_token_selected]. *)
Lemma scanned_name_hasExtension (tree : Tree.t) (this : FileManager.t)
      (file : ProjectFile) :
  In file (projectFiles (Scan.scanProject (Tree.env tree) this)) ->
  hasExtension (name file) = true.
Proof.
  intros Hin.
  pose proof (@scanLevels_keeps (Tree.env tree) (projectPath this) 6
                (projectPath this) 0 []
                (scanned_root (Tree.env tree) (projectPath this))
                (Forall_nil _)) as H.
  rewrite Forall_forall in H.
  destruct (H file Hin) as [(_ & Hext & Hsup & _) _].
  apply supported_name_hasExtension.
  cbn [NodeDir.extname Tree.env] in Hext. now rewrite <- Hext.
Qed.

(** An index put together by hand can hold a name without an extension;
    quoted in a message it is not found. *)
Example quoted_name_without_extension_not_selected :
  filesToInclude
    (constructor
       {| projectPath := Scenario.root;
          projectFiles :=
            [Scenario.sourceFile Scenario.root [] (str "Makefile")] |})
    (str "open " ++ dquote :: str "Makefile" ++ [dquote]) []
  = [].
Proof. vm_compute. reflexivity. Qed.

(** ** Retrying an operation *)

Section Retry.

Variable A : Type.
Variable asyncFn : nat -> A + RetryHandler.Error.
Variable this : RetryHandler.t.
Variable n : nat.
Hypothesis limit : RetryHandler.maxRetries this = Some n.

(** Failures that may be retried move the loop on, one attempt each. *)
Lemma attempts_advance (d : nat) :
  forall (a fuel : nat) (last : option RetryHandler.Error),
    (forall j, a <= j < a + d ->
               exists error,
                 asyncFn j = inr error
                 /\ RetryHandler.shouldNotRetry error = false) ->
    a + d <= n -> d <= fuel ->
    exists last',
      RetryHandler.attempts this asyncFn fuel a last
      = RetryHandler.attempts this asyncFn (fuel - d) (a + d) last'.
Proof.
  induction d as [|d IH]; intros a fuel last Hfail Hle Hfuel.
  - exists last. now rewrite Nat.sub_0_r, Nat.add_0_r.
  - destruct fuel as [|fuel]; [lia|].
    destruct (Hfail a ltac:(lia)) as (error & Ha & Hretry).
    destruct (IH (a + 1) fuel (Some error)) as [last' Hrest];
      [intros j Hj; apply Hfail; lia | lia | lia |].
    exists last'. cbn [RetryHandler.attempts].
    unfold RetryHandler.attemptLe, RetryHandler.attemptIs. rewrite limit.
    destruct (Nat.leb_spec a n); [|lia].
    rewrite Ha, Hretry.
    destruct (Nat.eqb_spec a n); [lia|].
    rewrite Hrest. cbn [Nat.sub]. f_equal. lia.
Qed.

Lemma attempts_calls_bounded (fuel : nat) :
  forall (a : nat) (last : option RetryHandler.Error),
    snd (RetryHandler.attempts this asyncFn fuel a last)
    <= Nat.max n (a - 1).
Proof.
  induction fuel as [|fuel IH]; intros a last; cbn [RetryHandler.attempts];
    unfold RetryHandler.attemptLe, RetryHandler.attemptIs; rewrite limit;
    destruct (Nat.leb_spec a n); cbn [snd]; try lia.
  destruct (asyncFn a) as [value|error]; cbn [snd]; [lia|].
  destruct (RetryHandler.shouldNotRetry error); cbn [snd]; [lia|].
  destruct (Nat.eqb_spec a n); cbn [snd]; [lia|].
  specialize (IH (a + 1) (Some error)). lia.
Qed.

End Retry.

(** With a limit of [n] attempts on the object, [executeWithRetry] calls the
    operation until it answers, throws an error with status 401, 400 or 402,
    or has failed [n] times: it settles with the first answer, or with the
    first such error, or with the error of the [n]-th call, having made
    exactly that many calls. *)
Theorem retry_outcome :
  forall (A : Type) (this : RetryHandler.t) (n k : nat)
         (asyncFn : nat -> A + RetryHandler.Error),
    RetryHandler.maxRetries this = Some n ->
    1 <= k <= n ->
    retriedBefore asyncFn k ->
    (forall value,
        asyncFn k = inl value ->
        RetryHandler.executeWithRetry this asyncFn
        = (RetryHandler.Resolved value, k))
    /\ (forall error,
           asyncFn k = inr error ->
           RetryHandler.shouldNotRetry error = true \/ k = n ->
           RetryHandler.executeWithRetry this asyncFn
           = (RetryHandler.Rejected (Some error), k)).
Proof.
  intros A this n k asyncFn Hlimit Hk Hbefore.
  assert (Hstart : exists last,
             RetryHandler.executeWithRetry this asyncFn
             = RetryHandler.attempts this asyncFn (S (n - k)) k last).
  { unfold RetryHandler.executeWithRetry. rewrite Hlimit.
    destruct (@attempts_advance A asyncFn this n Hlimit (k - 1) 1 n None)
      as [last Hadv]; [|lia|lia|].
    - intros j Hj. apply Hbefore. lia.
    - exists last. rewrite Hadv. f_equal; lia. }
  destruct Hstart as [last ->].
  cbn [RetryHandler.attempts].
  unfold RetryHandler.attemptLe, RetryHandler.attemptIs. rewrite Hlimit.
  destruct (Nat.leb_spec k n); [|lia].
  split.
  - intros value ->. reflexivity.
  - intros error -> [Hfatal | ->].
    + now rewrite Hfatal.
    + destruct (RetryHandler.shouldNotRetry error); [reflexivity|].
      now rewrite Nat.eqb_refl.
Qed.

Lemma retry_outcome_witness :
  RetryHandler.executeWithRetry (RetryHandler.Make (Some 5) 1000) flaky
  = (RetryHandler.Resolved (str "done"), 3).
Proof.
  destruct (@retry_outcome jsstring (RetryHandler.Make (Some 5) 1000) 5 3
              flaky eq_refl) as [H _].
  - lia.
  - intros j Hj. assert (Hj' : j = 1 \/ j = 2) by lia.
    destruct Hj' as [-> | ->]; eexists; split; reflexivity.
  - apply H. reflexivity.
Defined.

(** [executeWithRetry] never calls the operation more often than the limit
    on the object says.  The constructor leaves that limit undefined, whatever
    it is given, and then the operation is not called at all and the promise
    is rejected with [undefined]. *)
Theorem retry_calls_bounded :
  forall (A : Type) (asyncFn : nat -> A + RetryHandler.Error),
    (forall (this : RetryHandler.t) (n : nat),
        RetryHandler.maxRetries this = Some n ->
        snd (RetryHandler.executeWithRetry this asyncFn) <= n)
    /\ (forall maxretries baseDelay : nat,
           RetryHandler.executeWithRetry
             (RetryHandler.constructor maxretries baseDelay) asyncFn
           = (RetryHandler.Rejected None, 0)).
Proof.
  intros A asyncFn. split.
  - intros this n Hlimit. unfold RetryHandler.executeWithRetry.
    pose proof (@attempts_calls_bounded A asyncFn this n Hlimit
                  (match RetryHandler.maxRetries this with
                   | Some m => m
                   | None => 0
                   end) 1 None).
    lia.
  - intros maxretries baseDelay. reflexivity.
Qed.

Lemma retry_calls_bounded_witness :
  snd (RetryHandler.executeWithRetry (RetryHandler.Make (Some 2) 1000) flaky)
  <= 2.
Proof.
  apply (proj1 (@retry_calls_bounded jsstring flaky)
               (RetryHandler.Make (Some 2) 1000) 2).
  reflexivity.
Defined.

(** ** Messages that select nothing, and the order of a selection *)

Section NeedsUnit.

(** A unit of class [c] that the pattern cannot do without *)
Variable c : ascii -> bool.

Lemma plus_needs (c' : ascii -> bool) (k : jsstring -> option nat) :
  (forall s, forallb (fun a => negb (c a)) s = true -> k s = None) ->
  forall s, forallb (fun a => negb (c a)) s = true ->
            Regex.plus c' k s = None.
Proof.
  intros Hk. induction s as [|a s IH]; cbn [forallb Regex.plus];
    [reflexivity|].
  intros H. apply andb_prop in H as [_ Hs].
  destruct (c' a); [|reflexivity].
  now rewrite (IH Hs), (Hk s Hs).
Qed.

Lemma exec_needs (r : Regex.t) :
  In (One c) r ->
  forall s, forallb (fun a => negb (c a)) s = true -> Regex.exec r s = None.
Proof.
  induction r as [|i r IH]; [contradiction|].
  intros [-> | Hin]; cbn [Regex.exec].
  - intros [|a s]; [reflexivity|]. cbn [forallb]. intros H.
    apply andb_prop in H as [Ha _].
    now destruct (c a).
  - destruct i as [c'|c'].
    + intros [|a s]; [reflexivity|]. cbn [forallb]. intros H.
      apply andb_prop in H as [_ Hs].
      destruct (c' a); [|reflexivity]. now rewrite (IH Hin s Hs).
    + apply plus_needs. now apply IH.
Qed.

Lemma scan_needs (r : Regex.t) :
  In (One c) r ->
  forall s skip, forallb (fun a => negb (c a)) s = true ->
                 Regex.scan r skip s = [].
Proof.
  intros Hin. induction s as [|a s IH]; intros skip H; [reflexivity|].
  cbn [Regex.scan]. rewrite (@exec_needs r Hin (a :: s) H).
  cbn [forallb] in H. apply andb_prop in H as [_ Hs].
  destruct skip; now apply IH.
Qed.

End NeedsUnit.

Lemma filePatterns_need_dot :
  Forall (fun r => In (One (isChar dot)) r) filePatterns.
Proof. repeat constructor; cbn [In]; tauto. Qed.

(** A message without a dot that holds none of the nine keywords mentions no
    file, whatever the index holds; with no history the context is then the
    empty string. *)
Theorem plain_message_selects_nothing :
  forall (E : Node.env) (this : ContextBuilder.t) (message : jsstring),
    forallb (fun a => negb (isChar dot a)) message = true ->
    forallb (fun entry => negb (includes (toLowerCase message) (fst entry)))
            keywordToFileType = true ->
    _findMentionedFiles this message = []
    /\ fst (buildContext E this message []) = [].
Proof.
  intros E this message Hdot Hkeys.
  assert (Hp : patternPass this message = []).
  { unfold patternPass.
    pose proof filePatterns_need_dot as Hneed.
    induction Hneed as [|r rs Hr _ IH]; [reflexivity|].
    cbn [flat_map]. rewrite IH. unfold Regex.matchAll.
    now rewrite (@scan_needs (isChar dot) r Hr message 0 Hdot). }
  assert (Hk : keywordPass this (toLowerCase message) = []).
  { unfold keywordPass. revert Hkeys.
    induction keywordToFileType as [|[keyword patterns] table IH];
      [reflexivity|].
    cbn [forallb fst flat_map]. intros H.
    apply andb_prop in H as [Hhere Hrest].
    unfold keywordEntry at 1.
    destruct (includes (toLowerCase message) keyword); [discriminate|].
    now apply IH. }
  assert (Hm : _findMentionedFiles this message = []).
  { unfold _findMentionedFiles. now rewrite Hp, Hk. }
  split; [exact Hm|].
  apply buildContext_empty. unfold filesToInclude. now rewrite Hm.
Qed.

Lemma plain_message_selects_nothing_witness :
  fst (buildContext (Posix.env (Scenario.fiveFiles 3)) Scenario.builder5
         (str "thanks, that helps") []) = [].
Proof.
  apply (@plain_message_selects_nothing (Posix.env (Scenario.fiveFiles 3))
           Scenario.builder5 (str "thanks, that helps"));
    reflexivity.
Defined.

(** The keyword pass adds at most three paths for each pattern of the table,
    that is at most 87 for a message, however large the index. *)
Theorem keyword_pass_bound :
  forall (this : ContextBuilder.t) (lowerMessage : jsstring),
    length (keywordPass this lowerMessage) <= 87.
Proof.
  intros this lowerMessage. unfold keywordPass, keywordToFileType.
  cbn [flat_map]. rewrite !length_app. cbn [length].
  repeat match goal with
         | |- context [keywordEntry this lowerMessage (?k, ?ps)] =>
             let H := fresh "H" in
             pose proof (keyword_entry_bound this lowerMessage k ps) as H;
             cbn [length] in H;
             generalize dependent (keywordEntry this lowerMessage (k, ps));
             intros
         end.
  lia.
Qed.

Lemma ofList_NoDup_id (l : list jsstring) : NoDup l -> JsSet.ofList l = l.
Proof.
  intros H. rewrite ofList_firstAppearances.
  induction H as [|x l Hx Hl IH]; [reflexivity|].
  cbn [Spec.firstAppearances]. rewrite IH. f_equal.
  apply forallb_filter_id, forallb_forall. intros y Hy.
  destruct (jseqb x y) eqn:E; [|reflexivity].
  apply jseqb_eq in E. now subst y.
Qed.

(** In a selection the files of the current message come first, those found
    by a literal pattern before those found by a keyword, and after them the
    files carried over from the recent turns that the message did not
    mention itself. *)
Theorem selection_order :
  forall (this : ContextBuilder.t) (userMessage : jsstring)
         (history : list Message),
    (exists carried,
        filesToInclude this userMessage history
        = _findMentionedFiles this userMessage ++ carried
        /\ forall p, In p carried ->
                     ~ In p (_findMentionedFiles this userMessage)
                     /\ In p (_findRecentlyMentionedFiles this history))
    /\ (exists byKeyword,
           _findMentionedFiles this userMessage
           = JsSet.ofList (patternPass this userMessage) ++ byKeyword
           /\ forall p, In p byKeyword ->
                        ~ In p (patternPass this userMessage)
                        /\ In p (keywordPass this (toLowerCase userMessage))).
Proof.
  intros this userMessage history.
  assert (Hsplit : forall a b : list jsstring,
             exists tail,
               JsSet.ofList (a ++ b) = JsSet.ofList a ++ tail
               /\ forall p, In p tail -> ~ In p a /\ In p b).
  { intros a b. unfold JsSet.ofList at 1. rewrite addAll_app.
    fold (JsSet.ofList a). rewrite addAll_firstAppearances.
    eexists. split; [reflexivity|].
    intros p Hp. apply filter_In in Hp as [Hin Hnot]. split.
    - intros Ha. apply (proj2 (ofList_In a p)) in Ha.
      apply (proj2 (has_In (JsSet.ofList a) p)) in Ha.
      rewrite Ha in Hnot. discriminate.
    - exact (proj1 (firstAppearances_In b p) Hin). }
  split.
  - destruct (Hsplit (_findMentionedFiles this userMessage)
                     (_findRecentlyMentionedFiles this history))
      as (tail & Heq & Htail).
    exists tail. unfold filesToInclude. rewrite Heq.
    rewrite (ofList_NoDup_id (l := _findMentionedFiles this userMessage)).
    + split; [reflexivity | exact Htail].
    + unfold _findMentionedFiles. rewrite ofList_firstAppearances.
      apply firstAppearances_NoDup.
  - destruct (Hsplit (patternPass this userMessage)
                     (keywordPass this (toLowerCase userMessage)))
      as (tail & Heq & Htail).
    exists tail. split; [exact Heq | exact Htail].
Qed.
